(** * findmyjowa: presence and location broadcast engine

    A shallow embedding of the parts of the repository that the
    specification talks about:

    - [src/pages/api/socket.js]: the Socket.IO relay (ingest handlers and
      the periodic offline checker);
    - [src/pages/index.js]: the viewer/tracker page (device registration,
      the in-memory device list, status reporting, haversine distance);
    - [src/components/MapComponent.js]: marker colouring and
      [showBothDevices];
    - [src/lib/supabase.js]: the table constraints the handlers rely on.

    The distance formula is given twice.  [Geo] has it over the real
    numbers (ideal arithmetic, no rounding, no NaN), for the zoom table and
    for a value that is asked for within a tolerance; [GeoDouble] has it
    on IEEE 754 doubles, as the program computes it, for what depends on
    the exact value.  Timestamps are integers counting milliseconds since
    the Unix epoch. *)

From Stdlib Require Import Reals Lra Lia ZArith QArith Qround Ascii String.
From Stdlib Require Import SpecFloat.
From stdpp Require Import base list strings gmap.

Set Default Proof Using "Type".

(** ** Geospatial formulas *)

Module Geo.
Local Open Scope R_scope.

(** [Math.atan2(y, x)] on finite arguments. *)
Definition atan2 (y x : R) : R :=
  if Rlt_dec 0 x then atan (y / x)
  else if Rlt_dec x 0 then
    (if Rle_dec 0 y then atan (y / x) + PI else atan (y / x) - PI)
  else if Rlt_dec 0 y then PI / 2
  else if Rlt_dec y 0 then - (PI / 2)
  else 0.

(** [calculateDistance] of [index.js] read over the real numbers; the
    inline computation of [showBothDevices] in [MapComponent.js] is the
    same text. *)
Definition calculateDistance (lat1 lon1 lat2 lon2 : R) : R :=
  let R_ := 6371000 in
  let phi1 := lat1 * PI / 180 in
  let phi2 := lat2 * PI / 180 in
  let dphi := (lat2 - lat1) * PI / 180 in
  let dlambda := (lon2 - lon1) * PI / 180 in
  let a := sin (dphi / 2) * sin (dphi / 2) +
           cos phi1 * cos phi2 *
           sin (dlambda / 2) * sin (dlambda / 2) in
  let c := 2 * atan2 (sqrt a) (sqrt (1 - a)) in
  R_ * c.
End Geo.


(** ** IEEE 754 doubles *)

(** The numbers of JavaScript are IEEE 754 binary64 values.  They are
    modelled by [spec_float] with 53 bits of precision, every operation
    rounding to nearest, ties to even; the model has one NaN. *)

Declare Scope double_scope.
Delimit Scope double_scope with dbl.

Module Double.
Local Open Scope Z_scope.

Definition double : Type := spec_float.

Definition prec : Z := 53.
Definition emax : Z := 1024.

Definition NaN : double := S754_nan.

Definition add : double -> double -> double := SFadd prec emax.
Definition sub : double -> double -> double := SFsub prec emax.
Definition mul : double -> double -> double := SFmul prec emax.
Definition div : double -> double -> double := SFdiv prec emax.
Definition sqrt : double -> double := SFsqrt prec emax.
Definition opp : double -> double := SFopp.
Definition abs : double -> double := SFabs.

(** [x == y] and [x === y] on numbers, [x < y], [x > y]: all false when an
    operand is NaN. *)
Definition eqb : double -> double -> bool := SFeqb.
Definition ltb : double -> double -> bool := SFltb.
Definition gtb (x y : double) : bool := SFltb y x.

(** The double of an integer literal. *)
Definition of_Z (n : Z) : double := binary_normalize prec emax n 0 false.

(** The 64 bits of a double, sign first, then 11 bits of biased exponent
    and 52 bits of fraction, as a number below 2^64. *)
Definition bits (x : double) : Z :=
  match x with
  | S754_zero s => if s then 2 ^ 63 else 0
  | S754_infinity s => (if s then 2 ^ 63 else 0) + 0x7ff0000000000000
  | S754_nan => 0x7ff8000000000000
  | S754_finite s m e =>
      (if s then 2 ^ 63 else 0) + (e + 1074) * 2 ^ 52 + Zpos m
  end.

Definition of_bits (b : Z) : double :=
  let s := Z.testbit b 63 in
  let e := Z.land (Z.shiftr b 52) 0x7ff in
  let f := Z.land b 0xfffffffffffff in
  if e =? 0x7ff then (if f =? 0 then S754_infinity s else S754_nan)
  else if e =? 0 then
    match f with Zpos m => S754_finite s m (-1074) | _ => S754_zero s end
  else
    match f + 2 ^ 52 with
    | Zpos m => S754_finite s m (e - 1075)
    | _ => S754_nan
    end.

(** [__HI(x)], the upper 32 bits as a C [int], and [__LO(x)], the lower 32
    bits as an [unsigned]. *)
Definition HI (x : double) : Z :=
  let w := Z.shiftr (bits x) 32 in
  if 2 ^ 31 <=? w then w - 2 ^ 32 else w.

Definition LO (x : double) : Z := Z.land (bits x) 0xffffffff.

(** The double with the given upper and lower word. *)
Definition of_words (hi lo : Z) : double :=
  of_bits (Z.shiftl (hi mod 2 ^ 32) 32 + lo mod 2 ^ 32).

(** The C conversion [(int) x] of a finite double of small magnitude:
    the fraction is dropped. *)
Definition to_int (x : double) : Z :=
  match x with
  | S754_finite s m e =>
      let a := match e with
               | Zneg p => Z.shiftr (Zpos m) (Zpos p)
               | _ => Z.shiftl (Zpos m) e
               end in
      if s then - a else a
  | _ => 0
  end.

(** Neither NaN nor an infinity. *)
Definition is_finite (x : double) : bool :=
  match x with
  | S754_zero _ | S754_finite _ _ _ => true
  | _ => false
  end.

End Double.

Infix "+" := Double.add : double_scope.
Infix "-" := Double.sub : double_scope.
Infix "*" := Double.mul : double_scope.
Infix "/" := Double.div : double_scope.
Notation "- x" := (Double.opp x) : double_scope.


(** ** The Math functions of the engine *)

(** [Math.sin], [Math.cos] and [Math.atan2] are not code of the repository:
    they are functions of the engine that runs it, and ECMA-262 leaves the
    last bits of their values to the engine.  [Fdlibm] has the routines of
    fdlibm 5.3 ([k_sin.c], [k_cos.c], [e_rem_pio2.c], [s_sin.c], [s_cos.c],
    [s_atan.c], [e_atan2.c]), the library the [ieee754] functions of V8
    come from, statement by statement; the constants are given by their
    two words as in those files.  The reduction of arguments beyond
    2^19 * pi/2 ([__kernel_rem_pio2]) is a parameter: no coordinate
    reaches it. *)
Module Fdlibm.
Import Double.
Local Open Scope Z_scope.
Local Open Scope double_scope.

Definition zero : double := of_words 0x00000000 0x00000000.
Definition half : double := of_words 0x3FE00000 0x00000000.
Definition one : double := of_words 0x3FF00000 0x00000000.
(** 1.0e300 and 1.0e-300 *)
Definition huge : double := of_words 0x7E37E43C 0x8800759C.
Definition tiny : double := of_words 0x01A56E1F 0xC2F8F359.

(** *** [__kernel_sin] *)

Definition S1 : double := of_words 0xBFC55555 0x55555549.
Definition S2 : double := of_words 0x3F811111 0x1110F8A6.
Definition S3 : double := of_words 0xBF2A01A0 0x19C161D5.
Definition S4 : double := of_words 0x3EC71DE3 0x57B1FE7D.
Definition S5 : double := of_words 0xBE5AE5E6 0x8A2B9CEB.
Definition S6 : double := of_words 0x3DE5D93A 0x5ACFD57C.

(** The sine of [x + y] for [|x|] up to about pi/4, [y] the tail of [x]
    (taken to be 0 when [iy = 0]). *)
Definition kernel_sin (x y : double) (iy : Z) : double :=
  let ix := Z.land (HI x) 0x7fffffff in
  if (ix <? 0x3e400000)%Z && (to_int x =? 0)%Z then x
  else
    let z := x * x in
    let v := z * x in
    let r := S2 + z * (S3 + z * (S4 + z * (S5 + z * S6))) in
    if (iy =? 0)%Z then x + v * (S1 + z * r)
    else x - ((z * (half * y - v * r) - y) - v * S1).

(** *** [__kernel_cos] *)

Definition C1 : double := of_words 0x3FA55555 0x5555554C.
Definition C2 : double := of_words 0xBF56C16C 0x16C15177.
Definition C3 : double := of_words 0x3EFA01A0 0x19CB1590.
Definition C4 : double := of_words 0xBE927E4F 0x809C52AD.
Definition C5 : double := of_words 0x3E21EE9E 0xBDB4B1C4.
Definition C6 : double := of_words 0xBDA8FAE9 0xBE8838D4.

Definition kernel_cos (x y : double) : double :=
  let ix := Z.land (HI x) 0x7fffffff in
  if (ix <? 0x3e400000)%Z && (to_int x =? 0)%Z then one
  else
    let z := x * x in
    let r := z * (C1 + z * (C2 + z * (C3 + z * (C4 + z * (C5 + z * C6))))) in
    if (ix <? 0x3FD33333)%Z then one - (half * z - (z * r - x * y))
    else
      let qx := if (ix >? 0x3fe90000)%Z
                then of_words 0x3FD20000 0x00000000 (* 0.28125 *)
                else of_words (ix - 0x00200000) 0 in
      let hz := half * z - qx in
      let a := one - qx in
      a - (hz - (z * r - x * y)).

(** *** [__ieee754_rem_pio2] *)

Definition invpio2 : double := of_words 0x3FE45F30 0x6DC9C883.
Definition pio2_1 : double := of_words 0x3FF921FB 0x54400000.
Definition pio2_1t : double := of_words 0x3DD0B461 0x1A626331.
Definition pio2_2 : double := of_words 0x3DD0B461 0x1A600000.
Definition pio2_2t : double := of_words 0x3BA3198A 0x2E037073.
Definition pio2_3 : double := of_words 0x3BA3198A 0x2E000000.
Definition pio2_3t : double := of_words 0x397B839A 0x252049C1.

Definition npio2_hw : list Z :=
  [0x3FF921FB; 0x400921FB; 0x4012D97C; 0x401921FB; 0x401F6A7A; 0x4022D97C;
   0x4025FDBB; 0x402921FB; 0x402C463A; 0x402F6A7A; 0x4031475C; 0x4032D97C;
   0x40346B9C; 0x4035FDBB; 0x40378FDB; 0x403921FB; 0x403AB41B; 0x403C463A;
   0x403DD85A; 0x403F6A7A; 0x40407E4C; 0x4041475C; 0x4042106C; 0x4042D97C;
   0x4043A28C; 0x40446B9C; 0x404534AC; 0x4045FDBB; 0x4046C6CB; 0x40478FDB;
   0x404858EB; 0x404921FB]%Z.

(** The biased exponent of [y], [(__HI(y) >> 20) & 0x7ff]. *)
Definition exponent_field (y : double) : Z :=
  Z.land (Z.shiftr (HI y) 20) 0x7ff.

Section Reduction.
(** The part of [__ieee754_rem_pio2] for [|x|] beyond 2^19 * pi/2. *)
Variable rem_pio2_large : double -> Z * (double * double).

(** [n] and the remainder [y[0] + y[1]] of [x] by pi/2. *)
Definition rem_pio2 (x : double) : Z * (double * double) :=
  let hx := HI x in
  let ix := Z.land hx 0x7fffffff in
  if (ix <=? 0x3fe921fb)%Z then (0%Z, (x, zero))
  else if (ix <? 0x4002d97c)%Z then
    if (hx >? 0)%Z then
      let z := x - pio2_1 in
      if negb (ix =? 0x3ff921fb)%Z then
        let y0 := z - pio2_1t in
        (1%Z, (y0, (z - y0) - pio2_1t))
      else
        let z := z - pio2_2 in
        let y0 := z - pio2_2t in
        (1%Z, (y0, (z - y0) - pio2_2t))
    else
      let z := x + pio2_1 in
      if negb (ix =? 0x3ff921fb)%Z then
        let y0 := z + pio2_1t in
        ((-1)%Z, (y0, (z - y0) + pio2_1t))
      else
        let z := z + pio2_2 in
        let y0 := z + pio2_2t in
        ((-1)%Z, (y0, (z - y0) + pio2_2t))
  else if (ix <=? 0x413921fb)%Z then
    let t := abs x in
    let n := to_int (t * invpio2 + half) in
    let fn := of_Z n in
    let r := t - fn * pio2_1 in
    let w := fn * pio2_1t in
    let '(r, w, y0) :=
      if (n <? 32)%Z && negb (ix =? nth (Z.to_nat (n - 1)) npio2_hw 0%Z)%Z
      then (r, w, r - w)
      else
        let j := Z.shiftr ix 20 in
        let y0 := r - w in
        let i := (j - exponent_field y0)%Z in
        if (i >? 16)%Z then
          let t := r in
          let w := fn * pio2_2 in
          let r := t - w in
          let w := fn * pio2_2t - ((t - r) - w) in
          let y0 := r - w in
          let i := (j - exponent_field y0)%Z in
          if (i >? 49)%Z then
            let t := r in
            let w := fn * pio2_3 in
            let r := t - w in
            let w := fn * pio2_3t - ((t - r) - w) in
            (r, w, r - w)
          else (r, w, y0)
        else (r, w, y0) in
    let y1 := (r - y0) - w in
    if (hx <? 0)%Z then ((- n)%Z, (- y0, - y1)) else (n, (y0, y1))
  else if (ix >=? 0x7ff00000)%Z then (0%Z, (x - x, x - x))
  else rem_pio2_large x.

(** *** [sin] and [cos] *)

Definition sin (x : double) : double :=
  let ix := Z.land (HI x) 0x7fffffff in
  if (ix <=? 0x3fe921fb)%Z then kernel_sin x zero 0
  else if (ix >=? 0x7ff00000)%Z then x - x
  else
    let '(n, (y0, y1)) := rem_pio2 x in
    match Z.land n 3 with
    | 0%Z => kernel_sin y0 y1 1
    | 1%Z => kernel_cos y0 y1
    | 2%Z => - kernel_sin y0 y1 1
    | _ => - kernel_cos y0 y1
    end.

Definition cos (x : double) : double :=
  let ix := Z.land (HI x) 0x7fffffff in
  if (ix <=? 0x3fe921fb)%Z then kernel_cos x zero
  else if (ix >=? 0x7ff00000)%Z then x - x
  else
    let '(n, (y0, y1)) := rem_pio2 x in
    match Z.land n 3 with
    | 0%Z => kernel_cos y0 y1
    | 1%Z => - kernel_sin y0 y1 1
    | 2%Z => - kernel_cos y0 y1
    | _ => kernel_sin y0 y1 1
    end.
End Reduction.

(** *** [atan] *)

Definition atanhi : list double :=
  [of_words 0x3FDDAC67 0x0561BB4F; of_words 0x3FE921FB 0x54442D18;
   of_words 0x3FEF730B 0xD281F69B; of_words 0x3FF921FB 0x54442D18].

Definition atanlo : list double :=
  [of_words 0x3C7A2B7F 0x222F65E2; of_words 0x3C81A626 0x33145C07;
   of_words 0x3C700788 0x7AF0CBBD; of_words 0x3C91A626 0x33145C07].

Definition aT (i : nat) : double :=
  nth i
    [of_words 0x3FD55555 0x5555550D; of_words 0xBFC99999 0x9998EBC4;
     of_words 0x3FC24924 0x920083FF; of_words 0xBFBC71C6 0xFE231671;
     of_words 0x3FB745CD 0xC54C206E; of_words 0xBFB3B0F2 0xAF749A6D;
     of_words 0x3FB10D66 0xA0D03D51; of_words 0xBFADDE2D 0x52DEFD9A;
     of_words 0x3FA97B4B 0x24760DEB; of_words 0xBFA2B444 0x2C6A6C2F;
     of_words 0x3F90AD3A 0xE322DA11] NaN.

(** The argument reduced to below 7/16 and the index [id] of the
    breakpoint it was reduced by, [None] for the [-1] of the source. *)
Definition atan_reduce (ix : Z) (x : double) : option nat * double :=
  if (ix <? 0x3fdc0000)%Z then (None, x)
  else
    let x := abs x in
    let two := of_Z 2 in
    let three_halves := of_words 0x3FF80000 0x00000000 in
    if (ix <? 0x3ff30000)%Z then
      if (ix <? 0x3fe60000)%Z
      then (Some 0%nat, (two * x - one) / (two + x))
      else (Some 1%nat, (x - one) / (x + one))
    else
      if (ix <? 0x40038000)%Z
      then (Some 2%nat, (x - three_halves) / (one + three_halves * x))
      else (Some 3%nat, - one / x).

Definition atan (x : double) : double :=
  let hx := HI x in
  let ix := Z.land hx 0x7fffffff in
  if (ix >=? 0x44100000)%Z then
    if (ix >? 0x7ff00000)%Z || ((ix =? 0x7ff00000)%Z && negb (LO x =? 0)%Z)
    then x + x
    else if (hx >? 0)%Z then nth 3 atanhi NaN + nth 3 atanlo NaN
    else - nth 3 atanhi NaN - nth 3 atanlo NaN
  else if (ix <? 0x3e200000)%Z && gtb (huge + x) one then x
  else
    let '(id, x) := atan_reduce ix x in
    let z := x * x in
    let w := z * z in
    let s1 := z * (aT 0 + w * (aT 2 + w * (aT 4 + w * (aT 6
                     + w * (aT 8 + w * aT 10))))) in
    let s2 := w * (aT 1 + w * (aT 3 + w * (aT 5 + w * (aT 7 + w * aT 9)))) in
    match id with
    | None => x - x * (s1 + s2)
    | Some id =>
        let z := nth id atanhi NaN - ((x * (s1 + s2) - nth id atanlo NaN) - x) in
        if (hx <? 0)%Z then - z else z
    end.

(** *** [__ieee754_atan2] *)

Definition pi_o_4 : double := of_words 0x3FE921FB 0x54442D18.
Definition pi_o_2 : double := of_words 0x3FF921FB 0x54442D18.
Definition pi : double := of_words 0x400921FB 0x54442D18.
Definition pi_lo : double := of_words 0x3CA1A626 0x33145C07.

(** [(lx | -lx) >> 31] on an [unsigned]: 1 when a bit of [lx] is set. *)
Definition any_bit (lx : Z) : Z :=
  Z.shiftr (Z.lor lx ((- lx) mod 2 ^ 32)) 31.

Definition atan2 (y x : double) : double :=
  let hx := HI x in let ix := Z.land hx 0x7fffffff in let lx := LO x in
  let hy := HI y in let iy := Z.land hy 0x7fffffff in let ly := LO y in
  if (Z.lor ix (any_bit lx) >? 0x7ff00000)%Z
     || (Z.lor iy (any_bit ly) >? 0x7ff00000)%Z
  then x + y
  else if (Z.lor (hx - 0x3ff00000) lx =? 0)%Z then atan y
  else
    let m := Z.lor (Z.land (Z.shiftr hy 31) 1) (Z.land (Z.shiftr hx 30) 2) in
    let three := of_Z 3 in
    if (Z.lor iy ly =? 0)%Z then
      match m with
      | 0%Z | 1%Z => y
      | 2%Z => pi + tiny
      | _ => - pi - tiny
      end
    else if (Z.lor ix lx =? 0)%Z then
      if (hy <? 0)%Z then - pi_o_2 - tiny else pi_o_2 + tiny
    else if (ix =? 0x7ff00000)%Z then
      if (iy =? 0x7ff00000)%Z then
        match m with
        | 0%Z => pi_o_4 + tiny
        | 1%Z => - pi_o_4 - tiny
        | 2%Z => three * pi_o_4 + tiny
        | _ => - three * pi_o_4 - tiny
        end
      else
        match m with
        | 0%Z => zero
        | 1%Z => - zero
        | 2%Z => pi + tiny
        | _ => - pi - tiny
        end
    else if (iy =? 0x7ff00000)%Z then
      if (hy <? 0)%Z then - pi_o_2 - tiny else pi_o_2 + tiny
    else
      let k := Z.shiftr (iy - ix) 20 in
      let z := if (k >? 60)%Z then pi_o_2 + half * pi_lo
               else if (hx <? 0)%Z && (k <? -60)%Z then zero
               else atan (abs (y / x)) in
      match m with
      | 0%Z => z
      | 1%Z => - z
      | 2%Z => pi - (z - pi_lo)
      | _ => (z - pi_lo) - pi
      end.

End Fdlibm.


(** ** The distance in doubles *)

(** The [Math] object as far as the distance uses it. *)
Module Math.
Import Double.

Record t : Type := mk {
  sin : double -> double;
  cos : double -> double;
  atan2 : double -> double -> double
}.

(** [Math.PI] *)
Definition PI : double := of_words 0x400921FB 0x54442D18.

(** [Math.sqrt] is the square root of IEEE 754, NaN below zero. *)
Definition sqrt : double -> double := Double.sqrt.

(** The three functions as fdlibm computes them. *)
Definition fdlibm (rem_pio2_large : double -> Z * (double * double)) : t :=
  {| sin := Fdlibm.sin rem_pio2_large;
     cos := Fdlibm.cos rem_pio2_large;
     atan2 := Fdlibm.atan2 |}.
End Math.

Module GeoDouble.
Import Double.
Local Open Scope double_scope.

Section Engine.
Variable M : Math.t.

(** The term [a] of [calculateDistance]. *)
Definition haversine (lat1 lon1 lat2 lon2 : double) : double :=
  let φ1 := lat1 * Math.PI / of_Z 180 in
  let φ2 := lat2 * Math.PI / of_Z 180 in
  let Δφ := (lat2 - lat1) * Math.PI / of_Z 180 in
  let Δλ := (lon2 - lon1) * Math.PI / of_Z 180 in
  Math.sin M (Δφ / of_Z 2) * Math.sin M (Δφ / of_Z 2)
  + Math.cos M φ1 * Math.cos M φ2
    * Math.sin M (Δλ / of_Z 2) * Math.sin M (Δλ / of_Z 2).

(** [calculateDistance(lat1, lon1, lat2, lon2)] of [index.js], which is
    also the inline computation of [showBothDevices], on doubles. *)
Definition calculateDistance (lat1 lon1 lat2 lon2 : double) : double :=
  let R := of_Z 6371000 in
  let a := haversine lat1 lon1 lat2 lon2 in
  let c := of_Z 2 * Math.atan2 M (Math.sqrt a) (Math.sqrt (of_Z 1 - a)) in
  R * c.
End Engine.
End GeoDouble.

(** ** Control effects of the handlers

    Every handler of the relay and of the page is an [async] function whose
    body sits in a [try]/[catch].  A body is a state transformer that either
    completes or throws. *)

Module Eff.
Inductive Completion (A : Type) : Type :=
| Normal (a : A)
| Thrown (e : string).
Arguments Normal {A} a.
Arguments Thrown {A} e.

Definition t (S A : Type) : Type := S -> Completion A * S.

Definition ret {S A} (a : A) : t S A := fun s => (Normal a, s).

Definition bind {S A B} (m : t S A) (k : A -> t S B) : t S B :=
  fun s =>
    match m s with
    | (Normal a, s') => k a s'
    | (Thrown e, s') => (Thrown e, s')
    end.

Definition throw {S A} (e : string) : t S A := fun s => (Thrown e, s).

Definition get {S} : t S S := fun s => (Normal s, s).

Definition modify {S} (f : S -> S) : t S unit := fun s => (Normal tt, f s).

(** [try { body } catch (error) { handler(error) }] *)
Definition try_catch {S A} (body : t S A) (handler : string -> t S A) : t S A :=
  fun s =>
    match body s with
    | (Normal a, s') => (Normal a, s')
    | (Thrown e, s') => handler e s'
    end.

(** The state a computation leaves behind, whatever its completion. *)
Definition exec {S A} (m : t S A) (s : S) : S := snd (m s).

Definition completes {S A} (m : t S A) (s : S) : bool :=
  match fst (m s) with Normal _ => true | Thrown _ => false end.
End Eff.

#[global] Instance eff_ret {S} : MRet (Eff.t S) := fun _ a => Eff.ret a.
#[global] Instance eff_bind {S} : MBind (Eff.t S) := fun _ _ k m => Eff.bind m k.

(** ** JavaScript values of the time fields *)

Module Js.
(** What a [timestamp] or [last_seen] property can hold: nothing, the
    JSON [null] of a NULL column, or an ISO-8601 string, kept as the
    instant it denotes (milliseconds since the epoch). *)
Inductive TimeField : Type :=
| Undefined
| Null
| Iso (ms : Z).

(** Truthiness: a non-empty string is truthy, [undefined] and [null] are
    not. *)
Definition truthy (v : TimeField) : bool :=
  match v with Iso _ => true | _ => false end.

(** [a || b] *)
Definition or_else (a b : TimeField) : TimeField :=
  if truthy a then a else b.

(** [new Date(v)]: the time value of the new object, [None] for an
    Invalid Date (time value NaN).  [new Date(undefined)] is invalid,
    [new Date(null)] converts [null] to the number 0 and denotes the
    epoch. *)
Definition new_Date (v : TimeField) : option Z :=
  match v with
  | Undefined => None
  | Null => Some 0%Z
  | Iso ms => Some ms
  end.

(** [Math.round(x)]: the nearest integer, halves rounded up. *)
Definition Math_round (x : Q) : Z := Qfloor (x + (1 # 2)).
End Js.


(** ** The relational store ([src/lib/supabase.js])

    Tables and views as [createTables] declares them, with the column
    constraints the handlers depend on, and the three ways a call of the
    Supabase client can end. *)

Module Schema.
Local Open Scope Z_scope.

Record Device : Type := mkDevice {
  id : string;               (* UUID PRIMARY KEY *)
  user_id : string;          (* REFERENCES auth.users(id) *)
  device_name : string;      (* NOT NULL *)
  device_token : string;     (* UNIQUE *)
  device_type : string;
  is_online : bool;          (* DEFAULT FALSE *)
  last_seen : option Z;      (* TIMESTAMPTZ, nullable *)
  battery_level : option Z   (* CHECK (0 <= battery_level <= 100) *)
}.

Record UserProfile : Type := mkUserProfile {
  profile_id : string;       (* user_profiles.id, PRIMARY KEY *)
  username : string;
  full_name : option string
}.

Record LocationRow : Type := mkLocationRow {
  device_id : string;        (* REFERENCES devices(id) *)
  latitude : option R;       (* NOT NULL *)
  longitude : option R;      (* NOT NULL *)
  accuracy : option R;
  speed : option R;
  heading : option R;
  altitude : option R;
  timestamp : Z
}.

(** A row of the view [devices_with_users]: [d.*] and the profile columns. *)
Record DeviceWithUser : Type := mkDeviceWithUser {
  device : Device;
  profile : UserProfile
}.

Record Db : Type := mkDb {
  devices : list Device;
  user_profiles : list UserProfile;
  location_history : list LocationRow
}.

Record PostgrestError : Type := mkError {
  code : string;
  message : string
}.

(** The [{ data, error }] object a query resolves to. *)
Record Response (A : Type) : Type := mkResponse {
  data : option A;
  error : option PostgrestError
}.
Arguments mkResponse {A} data error.
Arguments data {A} r.
Arguments error {A} r.

(** How the store answers one call: it carries the statement out, answers
    with an [error] object of its own (outage, permission), or the request
    promise is rejected and the [await] throws. *)
Inductive Fault : Type :=
| Healthy
| ErrorReply (e : PostgrestError)
| Rejects (reason : string).

Definition set_devices (ds : list Device) (db : Db) : Db :=
  {| devices := ds;
     user_profiles := user_profiles db;
     location_history := location_history db |}.

Definition battery_ok (d : Device) : bool :=
  match battery_level d with
  | Some b => (0 <=? b) && (b <=? 100)
  | None => true
  end.

(** The stored rows satisfy the CHECK the table declares. *)
Definition checked (db : Db) : Prop :=
  Forall (fun d => battery_ok d = true) (devices db).

(** [INSERT INTO location_history]: foreign key on [device_id], NOT NULL
    on the coordinates. *)
Definition insert_location (row : LocationRow) (db : Db)
  : PostgrestError + (unit * Db) :=
  if negb (bool_decide (device_id row ∈ id <$> devices db)) then
    inl (mkError "23503" "violates foreign key constraint")
  else
    match latitude row, longitude row with
    | Some _, Some _ =>
        inr (tt, {| devices := devices db;
                    user_profiles := user_profiles db;
                    location_history := location_history db ++ [row] |})
    | _, _ => inl (mkError "23502" "violates not-null constraint")
    end.

(** [UPDATE devices SET ... WHERE ...]: the rows selected by [where_] are
    replaced by their image under [set]; the statement is rejected as a
    whole when a new row breaks the CHECK on [battery_level]. *)
Definition update_row (where_ : Device -> bool) (set : Device -> Device)
    (d : Device) : Device :=
  if where_ d then set d else d.

Definition update_devices (where_ : Device -> bool) (set : Device -> Device)
    (db : Db) : PostgrestError + (unit * Db) :=
  let ds := update_row where_ set <$> devices db in
  if forallb battery_ok (set <$> filter (fun d => where_ d = true) (devices db))
  then inr (tt, set_devices ds db)
  else inl (mkError "23514" "violates check constraint").

(** [INSERT INTO devices ... RETURNING *]: primary key on [id], UNIQUE on
    [device_token]. *)
Definition insert_device (d : Device) (db : Db)
  : PostgrestError + (Device * Db) :=
  if bool_decide (id d ∈ id <$> devices db) then
    inl (mkError "23505" "duplicate key value violates unique constraint devices_pkey")
  else if bool_decide (device_token d ∈ device_token <$> devices db) then
    inl (mkError "23505" "duplicate key value violates unique constraint devices_device_token_key")
  else inr (d, set_devices (devices db ++ [d]) db).

(** The rows of [devices] for an install token and an owner. *)
Definition rows_for (token owner : string) (db : Db) : list Device :=
  filter (fun d => device_token d = token ∧ user_id d = owner) (devices db).

(** [SELECT * FROM devices WHERE device_token = token AND user_id = owner] *)
Definition select_devices (token owner : string) (db : Db)
  : PostgrestError + (list Device * Db) :=
  inr (rows_for token owner db, db).

(** The view: [devices d JOIN user_profiles up ON d.user_id = up.id]. *)
Definition devices_with_users (db : Db) : list DeviceWithUser :=
  d ← devices db;
  p ← filter (fun p => profile_id p = user_id d) (user_profiles db);
  [mkDeviceWithUser d p].

(** [.from('devices_with_users').select('*').eq('id', deviceId).single()]:
    an error unless exactly one row matches. *)
Definition select_device_with_user (deviceId : string) (db : Db)
  : PostgrestError + (DeviceWithUser * Db) :=
  match filter (fun r => id (device r) = deviceId) (devices_with_users db) with
  | [r] => inr (r, db)
  | _ => inl (mkError "PGRST116" "JSON object requested, multiple (or no) rows returned")
  end.

(** One awaited call of the client. *)
Definition call {A} (f : Fault) (op : Db -> PostgrestError + (A * Db))
  : Eff.t Db (Response A) :=
  fun db =>
    match f with
    | Rejects reason => (Eff.Thrown reason, db)
    | ErrorReply e => (Eff.Normal (mkResponse None (Some e)), db)
    | Healthy =>
        match op db with
        | inl e => (Eff.Normal (mkResponse None (Some e)), db)
        | inr (a, db') => (Eff.Normal (mkResponse (Some a) None), db')
        end
    end.

(** The call does not go through: the response carries an [error], or the
    request is rejected. *)
Definition fails {A} (f : Fault) (op : Db -> PostgrestError + (A * Db))
    (db : Db) : Prop :=
  match fst (call f op db) with
  | Eff.Normal r => is_Some (error r)
  | Eff.Thrown _ => True
  end.
End Schema.


(** ** The relay ([src/pages/api/socket.js]) *)

Module Socket.
Local Open Scope Z_scope.

(** Payload of ['location-update']. *)
Record LocationEvent : Type := mkLocationEvent {
  deviceId : string;
  latitude : option R;
  longitude : option R;
  accuracy : option R;
  speed : option R;
  heading : option R;
  altitude : option R;
  timestamp : option Z
}.

(** Payload of ['device-status']. *)
Record StatusEvent : Type := mkStatusEvent {
  status_deviceId : string;
  isOnline : bool;
  batteryLevel : option Z
}.

Inductive Payload : Type :=
| LocationPayload (data : LocationEvent)
                  (deviceInfo : option Schema.DeviceWithUser)
| StatusPayload (data : StatusEvent)
| NoPayload.

(** One [io.to(room).emit(event, payload)]. *)
Record Emission : Type := mkEmission {
  room : string;
  event : string;
  payload : Payload
}.

(** The server: the store it talks to, the rooms each connected socket has
    joined, what it has emitted and what it has written to the console.
    The room every socket has under its own id is left out: the relay
    never emits to one. *)
Record World : Type := mkWorld {
  db : Schema.Db;
  sessions : gmap string (gset string);
  outbox : list Emission;
  console : list string
}.

Definition with_db {A} (m : Eff.t Schema.Db A) : Eff.t World A :=
  fun w =>
    let '(r, db') := m (db w) in
    (r, {| db := db'; sessions := sessions w;
           outbox := outbox w; console := console w |}).

Definition emit (room event : string) (p : Payload) : Eff.t World unit :=
  Eff.modify (fun w =>
    {| db := db w; sessions := sessions w;
       outbox := outbox w ++ [mkEmission room event p];
       console := console w |}).

Definition console_error (label : string) : Eff.t World unit :=
  Eff.modify (fun w =>
    {| db := db w; sessions := sessions w; outbox := outbox w;
       console := console w ++ [label] |}).

(** [socket.join(room)] *)
Definition join (sid room : string) : Eff.t World unit :=
  Eff.modify (fun w =>
    {| db := db w;
       sessions := <[sid := {[room]} ∪ default ∅ (sessions w !! sid)]> (sessions w);
       outbox := outbox w; console := console w |}).

(** A new connection has joined nothing yet. *)
Definition on_connection (sid : string) : Eff.t World unit :=
  Eff.modify (fun w =>
    {| db := db w; sessions := <[sid := ∅]> (sessions w);
       outbox := outbox w; console := console w |}).

Definition user_room (userId : string) : string := "user-" +:+ userId.

Definition on_join_user (sid userId : string) : Eff.t World unit :=
  join sid (user_room userId).

Definition on_join_global (sid : string) : Eff.t World unit :=
  join sid "global".

(** A socket gets an emission when it is in the room emitted to. *)
Definition receives (w : World) (sid : string) (e : Emission) : Prop :=
  ∃ rooms : gset string, sessions w !! sid = Some rooms ∧ room e ∈ rooms.

(** Faults of the three awaited calls of the ['location-update'] handler. *)
Record IngestFaults : Type := mkIngestFaults {
  insert_fault : Schema.Fault;
  update_fault : Schema.Fault;
  select_fault : Schema.Fault
}.

(** [const { deviceId, ... } = data] throws a TypeError when the client sent
    no payload. *)
Definition destructure {A} (data : option A) : Eff.t World A :=
  match data with
  | Some d => Eff.ret d
  | None => Eff.throw "TypeError: Cannot destructure"
  end.

Definition location_row (d : LocationEvent) (now : Z) : Schema.LocationRow :=
  {| Schema.device_id := deviceId d;
     Schema.latitude := latitude d;
     Schema.longitude := longitude d;
     Schema.accuracy := accuracy d;
     Schema.speed := speed d;
     Schema.heading := heading d;
     Schema.altitude := altitude d;
     Schema.timestamp := default now (timestamp d) |}.

Definition touch (now : Z) (d : Schema.Device) : Schema.Device :=
  {| Schema.id := Schema.id d; Schema.user_id := Schema.user_id d;
     Schema.device_name := Schema.device_name d;
     Schema.device_token := Schema.device_token d;
     Schema.device_type := Schema.device_type d;
     Schema.is_online := true;
     Schema.last_seen := Some now;
     Schema.battery_level := Schema.battery_level d |}.

Definition has_id (deviceId : string) (d : Schema.Device) : bool :=
  bool_decide (Schema.id d = deviceId).

(** The [data] of the metadata query of the ['location-update'] handler,
    when the request is not rejected: the row, or [null]. *)
Definition device_info (f : Schema.Fault) (deviceId : string)
    (db : Schema.Db) : option Schema.DeviceWithUser :=
  match fst (Schema.call f (Schema.select_device_with_user deviceId) db) with
  | Eff.Normal r => Schema.data r
  | Eff.Thrown _ => None
  end.

(** [socket.on('location-update', async (data) => ...)]; [now] is the
    server clock read by [new Date()], taken to show the same instant at
    both places the handler reads it.  A handler runs to its end here: what
    other handlers do while it awaits the store is not modelled. *)
Definition on_location_update (f : IngestFaults) (now : Z)
    (data : option LocationEvent) : Eff.t World unit :=
  Eff.try_catch
    (d ← destructure data;
     r1 ← with_db (Schema.call (insert_fault f)
                     (Schema.insert_location (location_row d now)));
     match Schema.error r1 with
     | Some _ => console_error "Error inserting location:"
     | None =>
         r2 ← with_db (Schema.call (update_fault f)
                         (Schema.update_devices (has_id (deviceId d)) (touch now)));
         match Schema.error r2 with
         | Some _ => console_error "Error updating device:"
         | None =>
             r3 ← with_db (Schema.call (select_fault f)
                             (Schema.select_device_with_user (deviceId d)));
             let deviceInfo := Schema.data r3 in
             emit "global" "location-updated" (LocationPayload d deviceInfo);;
             match deviceInfo with
             | Some info =>
                 emit (user_room (Schema.user_id (Schema.device info)))
                      "device-location-updated" (LocationPayload d deviceInfo)
             | None => mret tt
             end
         end
     end)
    (fun _ => console_error "Error handling location update:").

Definition set_status (s : StatusEvent) (now : Z) (d : Schema.Device)
  : Schema.Device :=
  {| Schema.id := Schema.id d; Schema.user_id := Schema.user_id d;
     Schema.device_name := Schema.device_name d;
     Schema.device_token := Schema.device_token d;
     Schema.device_type := Schema.device_type d;
     Schema.is_online := isOnline s;
     Schema.last_seen := Some now;
     Schema.battery_level := batteryLevel s |}.

(** [socket.on('device-status', async (data) => ...)] *)
Definition on_device_status (f : Schema.Fault) (now : Z)
    (data : option StatusEvent) : Eff.t World unit :=
  Eff.try_catch
    (s ← destructure data;
     r ← with_db (Schema.call f
                    (Schema.update_devices (has_id (status_deviceId s))
                                           (set_status s now)));
     match Schema.error r with
     | None => emit "global" "device-status-updated" (StatusPayload s)
     | Some _ => mret tt
     end)
    (fun _ => console_error "Error updating device status:").

(** The filter of the periodic checker:
    [.lt('last_seen', now - 2 min).eq('is_online', true)].  A NULL
    [last_seen] compares as unknown and is not selected. *)
Definition gone_quiet (now : Z) (d : Schema.Device) : bool :=
  match Schema.last_seen d with
  | Some t => (t <? now - 2 * 60 * 1000) && Schema.is_online d
  | None => false
  end.

Definition set_offline (d : Schema.Device) : Schema.Device :=
  {| Schema.id := Schema.id d; Schema.user_id := Schema.user_id d;
     Schema.device_name := Schema.device_name d;
     Schema.device_token := Schema.device_token d;
     Schema.device_type := Schema.device_type d;
     Schema.is_online := false;
     Schema.last_seen := Schema.last_seen d;
     Schema.battery_level := Schema.battery_level d |}.

(** The callback of [setInterval(..., 30000)]; [now] is [Date.now()]. *)
Definition offline_check (f : Schema.Fault) (now : Z) : Eff.t World unit :=
  Eff.try_catch
    (r ← with_db (Schema.call f
                    (Schema.update_devices (gone_quiet now) set_offline));
     match Schema.error r with
     | None => emit "global" "devices-offline-check" NoPayload
     | Some _ => mret tt
     end)
    (fun _ => console_error "Error checking offline devices:").
End Socket.


(** ** The page ([src/pages/index.js]) *)

Module Index.
Local Open Scope Z_scope.

(** The signed-in Supabase user: [user.id] and [user.email]. *)
Record User : Type := mkUser {
  auth_id : string;
  email : string
}.

(** An element of [allDeviceLocations], which is also the [devices] prop of
    the map.  Properties an object does not carry are [None],
    [Js.Undefined] or, for the flag, [false]. *)
Record DeviceLocation : Type := mkDeviceLocation {
  device_id : string;
  latitude : option R;
  longitude : option R;
  accuracy : option R;
  speed : option R;
  timestamp : Js.TimeField;
  device_name : option string;
  device_type : option string;
  username : option string;
  is_online : bool;
  last_seen : Js.TimeField;
  battery_level : option Z
}.

Inductive Toast : Type :=
| ToastSuccess (text : string)
| ToastError (text : string).

Inductive Emitted : Type :=
| EmitJoinGlobal
| EmitLocationUpdate (data : Socket.LocationEvent)
| EmitDeviceStatus (data : Socket.StatusEvent).

(** The React state the modelled functions read and write. *)
Record Page : Type := mkPage {
  user : option User;
  deviceUUID : string;
  deviceName : string;
  currentDevice : option Schema.Device;
  isDeviceSetupComplete : bool;
  showDeviceNaming : bool;
  isOnline : bool;
  allDeviceLocations : list DeviceLocation
}.

(** [navigator.getBattery], when the browser has it, and the level its
    [BatteryManager] reports (between 0 and 1). *)
Record BatteryManager : Type := mkBattery { level : Q }.
Record Navigator : Type := mkNavigator { getBattery : option BatteryManager }.

(** The page, the store behind the Supabase client, what went out on the
    socket, what was shown or logged, and the values of promises that were
    created and never read. *)
Record World : Type := mkWorld {
  page : Page;
  db : Schema.Db;
  emitted : list Emitted;
  toasts : list Toast;
  console : list string;
  dropped_promises : list Z
}.

Definition set_state (f : Page -> Page) : Eff.t World unit :=
  Eff.modify (fun w =>
    {| page := f (page w); db := db w; emitted := emitted w;
       toasts := toasts w; console := console w;
       dropped_promises := dropped_promises w |}).

Definition with_db {A} (m : Eff.t Schema.Db A) : Eff.t World A :=
  fun w =>
    let '(r, db') := m (db w) in
    (r, {| page := page w; db := db'; emitted := emitted w;
           toasts := toasts w; console := console w;
           dropped_promises := dropped_promises w |}).

Definition socket_emit (e : Emitted) : Eff.t World unit :=
  Eff.modify (fun w =>
    {| page := page w; db := db w; emitted := emitted w ++ [e];
       toasts := toasts w; console := console w;
       dropped_promises := dropped_promises w |}).

Definition toast (t : Toast) : Eff.t World unit :=
  Eff.modify (fun w =>
    {| page := page w; db := db w; emitted := emitted w;
       toasts := toasts w ++ [t]; console := console w;
       dropped_promises := dropped_promises w |}).

Definition console_error (label : string) : Eff.t World unit :=
  Eff.modify (fun w =>
    {| page := page w; db := db w; emitted := emitted w;
       toasts := toasts w; console := console w ++ [label];
       dropped_promises := dropped_promises w |}).

(** A promise whose settled value nothing reads. *)
Definition drop_promise (v : Z) : Eff.t World unit :=
  Eff.modify (fun w =>
    {| page := page w; db := db w; emitted := emitted w;
       toasts := toasts w; console := console w;
       dropped_promises := dropped_promises w ++ [v] |}).

Definition setCurrentDevice (d : option Schema.Device) (p : Page) : Page :=
  {| user := user p; deviceUUID := deviceUUID p; deviceName := deviceName p;
     currentDevice := d;
     isDeviceSetupComplete := isDeviceSetupComplete p;
     showDeviceNaming := showDeviceNaming p; isOnline := isOnline p;
     allDeviceLocations := allDeviceLocations p |}.

Definition setIsDeviceSetupComplete (b : bool) (p : Page) : Page :=
  {| user := user p; deviceUUID := deviceUUID p; deviceName := deviceName p;
     currentDevice := currentDevice p;
     isDeviceSetupComplete := b;
     showDeviceNaming := showDeviceNaming p; isOnline := isOnline p;
     allDeviceLocations := allDeviceLocations p |}.

Definition setShowDeviceNaming (b : bool) (p : Page) : Page :=
  {| user := user p; deviceUUID := deviceUUID p; deviceName := deviceName p;
     currentDevice := currentDevice p;
     isDeviceSetupComplete := isDeviceSetupComplete p;
     showDeviceNaming := b; isOnline := isOnline p;
     allDeviceLocations := allDeviceLocations p |}.

Definition setDeviceName (name : string) (p : Page) : Page :=
  {| user := user p; deviceUUID := deviceUUID p; deviceName := name;
     currentDevice := currentDevice p;
     isDeviceSetupComplete := isDeviceSetupComplete p;
     showDeviceNaming := showDeviceNaming p; isOnline := isOnline p;
     allDeviceLocations := allDeviceLocations p |}.

(** [setAllDeviceLocations(prev => f(prev))] *)
Definition setAllDeviceLocations
    (f : list DeviceLocation -> list DeviceLocation) (p : Page) : Page :=
  {| user := user p; deviceUUID := deviceUUID p; deviceName := deviceName p;
     currentDevice := currentDevice p;
     isDeviceSetupComplete := isDeviceSetupComplete p;
     showDeviceNaming := showDeviceNaming p; isOnline := isOnline p;
     allDeviceLocations := f (allDeviceLocations p) |}.

(** *** The device list *)

(** A column read from JSON: NULL arrives as [null]. *)
Definition json_time (o : option Z) : Js.TimeField :=
  match o with Some t => Js.Iso t | None => Js.Null end.

(** The object the ['location-updated'] listener appends:
    [{ device_id: data.deviceId, latitude, longitude, timestamp,
       ...data.deviceInfo }].  No column of [devices_with_users] is called
    [device_id], [latitude], [longitude] or [timestamp], so the spread
    overwrites none of the four. *)
Definition broadcast_entry (data : Socket.LocationEvent)
    (deviceInfo : option Schema.DeviceWithUser) : DeviceLocation :=
  let dev := Schema.device <$> deviceInfo in
  {| device_id := Socket.deviceId data;
     latitude := Socket.latitude data;
     longitude := Socket.longitude data;
     accuracy := None;
     speed := None;
     timestamp := from_option Js.Iso Js.Undefined (Socket.timestamp data);
     device_name := Schema.device_name <$> dev;
     device_type := Schema.device_type <$> dev;
     username := (Schema.username ∘ Schema.profile) <$> deviceInfo;
     is_online := from_option Schema.is_online false dev;
     last_seen := from_option (json_time ∘ Schema.last_seen) Js.Undefined dev;
     battery_level := dev ≫= Schema.battery_level |}.

(** [prev => [...prev.filter(loc => loc.device_id !== id), entry]] *)
Definition replace_entry (id : string) (entry : DeviceLocation)
    (prev : list DeviceLocation) : list DeviceLocation :=
  filter (fun loc => device_id loc ≠ id) prev ++ [entry].

(** [socket.on('location-updated', (data) => ...)] *)
Definition on_location_updated (data : Socket.LocationEvent)
    (deviceInfo : option Schema.DeviceWithUser) : Eff.t World unit :=
  set_state (setAllDeviceLocations
    (replace_entry (Socket.deviceId data) (broadcast_entry data deviceInfo))).
(** *** Status reports *)

(** [getBatteryLevel]: when the browser offers [getBattery], a promise
    chain computing the percentage is started, and its value stays inside
    the chain; the function itself goes on to [return null]. *)
Definition getBatteryLevel (nav : Navigator) : Eff.t World (option Z) :=
  match getBattery nav with
  | Some battery =>
      drop_promise (Js.Math_round (level battery * 100));;
      mret None
  | None => mret None
  end.

Definition report_status (online : bool) (now : Z) (d : Schema.Device)
  : Schema.Device :=
  {| Schema.id := Schema.id d; Schema.user_id := Schema.user_id d;
     Schema.device_name := Schema.device_name d;
     Schema.device_token := Schema.device_token d;
     Schema.device_type := Schema.device_type d;
     Schema.is_online := online;
     Schema.last_seen := Some now;
     Schema.battery_level := Schema.battery_level d |}.

(** [updateDeviceStatus(isOnlineStatus)] *)
Definition updateDeviceStatus (f : Schema.Fault) (nav : Navigator) (now : Z)
    (isOnlineStatus : bool) : Eff.t World unit :=
  w ← Eff.get;
  match currentDevice (page w) with
  | None => mret tt
  | Some cur =>
      let online := isOnlineStatus && isOnline (page w) in
      Eff.try_catch
        (r ← with_db (Schema.call f
                        (Schema.update_devices
                           (Socket.has_id (Schema.id cur))
                           (report_status online now)));
         match Schema.error r with
         | Some _ => console_error "Error updating device status:"
         | None => mret tt
         end;;
         battery ← getBatteryLevel nav;
         socket_emit (EmitDeviceStatus
           {| Socket.status_deviceId := Schema.id cur;
              Socket.isOnline := online;
              Socket.batteryLevel := battery |}))
        (fun _ => console_error "Error updating device status:")
  end.

(** *** The first position fix *)

(** [position.coords] *)
Record Coords : Type := mkCoords {
  coords_latitude : R;
  coords_longitude : R;
  coords_accuracy : R;
  coords_speed : option R;
  coords_heading : option R;
  coords_altitude : option R
}.

Definition local_entry (device : Schema.Device) (u : User) (c : Coords)
    (now : Z) : DeviceLocation :=
  {| device_id := Schema.id device;
     latitude := Some (coords_latitude c);
     longitude := Some (coords_longitude c);
     accuracy := Some (coords_accuracy c);
     speed := coords_speed c;
     timestamp := Js.Iso now;
     device_name := Some (Schema.device_name device);
     device_type := Some (Schema.device_type device);
     username := Some (email u);
     is_online := true;
     last_seen := Js.Undefined;
     battery_level := None |}.

(** The success callback [getCurrentLocationAndDisplay(device)] hands to
    [getCurrentPosition]. *)
Definition on_initial_position (f : Schema.Fault) (nav : Navigator)
    (device : Schema.Device) (c : Coords) (now : Z) : Eff.t World unit :=
  socket_emit (EmitLocationUpdate
    {| Socket.deviceId := Schema.id device;
       Socket.latitude := Some (coords_latitude c);
       Socket.longitude := Some (coords_longitude c);
       Socket.accuracy := Some (coords_accuracy c);
       Socket.speed := coords_speed c;
       Socket.heading := coords_heading c;
       Socket.altitude := coords_altitude c;
       Socket.timestamp := Some now |});;
  w ← Eff.get;
  match user (page w) with
  | None => Eff.throw "TypeError: Cannot read properties of null (reading 'email')"
  | Some u =>
      set_state (setAllDeviceLocations
        (replace_entry (Schema.id device) (local_entry device u c now)));;
      updateDeviceStatus f nav now true;;
      toast (ToastSuccess "Location updated!")
  end.

(** *** Device registration *)

Definition is_space (a : ascii) : bool :=
  match a with
  | " "%char | "009"%char | "010"%char | "011"%char | "012"%char
  | "013"%char => true
  | _ => false
  end.

Fixpoint trim_start (s : string) : string :=
  match s with
  | String a s' => if is_space a then trim_start s' else s
  | EmptyString => EmptyString
  end.

(** [String.prototype.trim], for the ASCII white space. *)
Definition trim (s : string) : string :=
  String.rev (trim_start (String.rev (trim_start s))).

(** What [checkAndCreateDevice] does once the query has answered without
    a fatal error. *)
Definition use_or_name (existingDevices : option (list Schema.Device))
  : Eff.t World unit :=
  match existingDevices with
  | Some (existingDevice :: _) =>
      set_state (setCurrentDevice (Some existingDevice));;
      set_state (setIsDeviceSetupComplete true);;
      set_state (setShowDeviceNaming false);;
      toast (ToastSuccess ("Welcome back! Using device: "
                           +:+ Schema.device_name existingDevice))
  | _ =>
      set_state (setShowDeviceNaming true);;
      set_state (setIsDeviceSetupComplete false)
  end.

(** [checkAndCreateDevice].  The two calls that close its success branch,
    [getCurrentLocationAndDisplay] and [startLocationTracking], only
    register geolocation callbacks; what the first callback does is
    [on_initial_position]. *)
Definition checkAndCreateDevice (f : Schema.Fault) : Eff.t World unit :=
  w ← Eff.get;
  match user (page w) with
  | None => mret tt
  | Some u =>
      if bool_decide (deviceUUID (page w) = "") then mret tt
      else
        Eff.try_catch
          (r ← with_db (Schema.call f
                          (Schema.select_devices (deviceUUID (page w))
                                                 (auth_id u)));
           match Schema.error r with
           | Some fetchError =>
               if bool_decide (Schema.code fetchError ≠ "PGRST116") then
                 console_error "Database error fetching device:";;
                 toast (ToastError ("Database error: "
                                    +:+ Schema.message fetchError))
               else use_or_name (Schema.data r)
           | None => use_or_name (Schema.data r)
           end)
          (fun e =>
             console_error "Unexpected error checking device:";;
             toast (ToastError ("Error checking device: " +:+ e)))
  end.

(** The row [saveDeviceName] inserts; [uuid] is what [gen_random_uuid()]
    draws for the [id] column, the other columns take their defaults. *)
Definition new_device (uuid : string) (u : User) (p : Page) : Schema.Device :=
  {| Schema.id := uuid;
     Schema.user_id := auth_id u;
     Schema.device_name := trim (deviceName p);
     Schema.device_token := deviceUUID p;
     Schema.device_type := "mobile";
     Schema.is_online := true;
     Schema.last_seen := None;
     Schema.battery_level := None |}.

(** [saveDeviceName], the submit action of the naming form. *)
Definition saveDeviceName (f : Schema.Fault) (uuid : string)
  : Eff.t World unit :=
  w ← Eff.get;
  if bool_decide (trim (deviceName (page w)) = "") then
    toast (ToastError "Please enter a device name")
  else
    Eff.try_catch
      (match user (page w) with
       | None => Eff.throw "TypeError: Cannot read properties of null (reading 'id')"
       | Some u =>
           r ← with_db (Schema.call f
                          (Schema.insert_device (new_device uuid u (page w))));
           match Schema.error r with
           | Some error =>
               console_error "Error saving device:";;
               toast (ToastError ("Error saving device: "
                                  +:+ Schema.message error))
           | None =>
               set_state (setCurrentDevice (Schema.data r));;
               set_state (setIsDeviceSetupComplete true);;
               set_state (setShowDeviceNaming false);;
               toast (ToastSuccess "Device registered successfully!")
           end
       end)
      (fun e =>
         console_error "Unexpected error saving device:";;
         toast (ToastError ("Unexpected error: " +:+ e))).

(** The setup flow as the page drives it: the check runs once location
    access is granted, and the naming form, rendered only while
    [showDeviceNaming] holds, is filled in with [name] and submitted. *)
Definition setup_flow (lookup insert : Schema.Fault) (name uuid : string)
  : Eff.t World unit :=
  checkAndCreateDevice lookup;;
  w ← Eff.get;
  if showDeviceNaming (page w) then
    set_state (setDeviceName name);;
    saveDeviceName insert uuid
  else mret tt.

(** The page right after it has loaded for a signed-in user: the install
    token comes from [localStorage], everything else is at its [useState]
    default. *)
Definition loaded_page (u : User) (token : string) (online : bool) : Page :=
  {| user := Some u; deviceUUID := token; deviceName := "";
     currentDevice := None; isDeviceSetupComplete := false;
     showDeviceNaming := false; isOnline := online;
     allDeviceLocations := [] |}.

Definition loaded_world (u : User) (token : string) (online : bool)
    (store : Schema.Db) : World :=
  {| page := loaded_page u token online; db := store; emitted := [];
     toasts := []; console := []; dropped_promises := [] |}.

(** One run of the setup flow on a freshly loaded page. *)
Definition setup_run (u : User) (token : string) (online : bool)
    (store : Schema.Db) (lookup insert : Schema.Fault) (name uuid : string)
  : World :=
  Eff.exec (setup_flow lookup insert name uuid)
           (loaded_world u token online store).

(** How a run can end: nothing changed and no device in hand; an existing
    row found and taken; or, no row with the token being there, a new row
    appended and taken. *)
Inductive Outcome (u : User) (token : string) (store : Schema.Db)
    (w : World) : Prop :=
| NoDevice :
    db w = store ->
    currentDevice (page w) = None ->
    Outcome u token store w
| Reused (d : Schema.Device) (rest : list Schema.Device) :
    token <> "" ->
    db w = store ->
    currentDevice (page w) = Some d ->
    Schema.rows_for token (auth_id u) store = d :: rest ->
    Outcome u token store w
| Created (d : Schema.Device) :
    token <> "" ->
    db w = Schema.set_devices (Schema.devices store ++ [d]) store ->
    currentDevice (page w) = Some d ->
    Schema.device_token d = token ->
    Schema.user_id d = auth_id u ->
    token ∉ Schema.device_token <$> Schema.devices store ->
    Outcome u token store w.
End Index.


(** ** The map ([src/components/MapComponent.js]) *)

Module MapComponent.

(** The three colours a marker ends up with (the initial ['gray'] is always
    overwritten): ['#22c55e'], ['#eab308'] and ['#ef4444'].  They are the
    presence classes fresh, stale and offline. *)
Inductive MarkerColor : Type :=
| Green
| Yellow
| Red.

(** [(now - lastUpdate) / 1000 / 60], in minutes; [None] is the NaN an
    Invalid Date yields.  The two divisions are exact here; in double
    arithmetic they are monotone and exact at 300000 ms and 1800000 ms, so
    the comparisons with 5 and 30 come out the same. *)
Definition timeDiff (device : Index.DeviceLocation) (now : Z) : option Q :=
  lastUpdate ← Js.new_Date
    (Js.or_else (Index.timestamp device) (Index.last_seen device));
  Some (inject_Z (now - lastUpdate) / 1000 / 60)%Q.

(** [x < c], false when [x] is NaN. *)
Definition num_lt (x : option Q) (c : Q) : bool :=
  match x with
  | Some q => if Qlt_le_dec q c then true else false
  | None => false
  end.

(** Truthiness of a coordinate property: absent, [null] and the number 0
    are falsy. *)
Definition truthy_coord (c : option R) : bool :=
  match c with
  | Some x => if Req_dec_T x 0 then false else true
  | None => false
  end.

(** One round of the [devices.forEach] of the marker effect, up to the
    colour: [None] when the round ends at
    [if (!device.latitude || !device.longitude) return] and no marker is
    made, otherwise the colour of the marker. *)
Definition markerColor (device : Index.DeviceLocation) (now : Z)
  : option MarkerColor :=
  if negb (truthy_coord (Index.latitude device))
     || negb (truthy_coord (Index.longitude device))
  then None
  else
    let t := timeDiff device now in
    Some (if Index.is_online device && num_lt t 5 then Green
          else if Index.is_online device && num_lt t 30 then Yellow
          else Red).




Definition validDevices (devices : list Index.DeviceLocation)
    (deviceIds : list string) : list Index.DeviceLocation :=
  filter (fun d => Index.device_id d ∈ deviceIds
                   ∧ truthy_coord (Index.latitude d) = true
                   ∧ truthy_coord (Index.longitude d) = true) devices.


End MapComponent.


(** ** Concrete situations

    Inputs the examples further down are evaluated at. *)

Module Scenarios.
Local Open Scope Z_scope.

(** A list entry of a device at (1, 1) with the given flag and last-seen
    value. *)
Definition entry (online : bool) (lastSeen : Js.TimeField)
  : Index.DeviceLocation :=
  {| Index.device_id := "d";
     Index.latitude := Some 1%R; Index.longitude := Some 1%R;
     Index.accuracy := None; Index.speed := None;
     Index.timestamp := Js.Undefined;
     Index.device_name := None; Index.device_type := None;
     Index.username := None; Index.is_online := online;
     Index.last_seen := lastSeen; Index.battery_level := None |}.

(** A list entry with coordinates. *)
Definition located (id : string) (lat lon : R) : Index.DeviceLocation :=
  {| Index.device_id := id;
     Index.latitude := Some lat; Index.longitude := Some lon;
     Index.accuracy := None; Index.speed := None;
     Index.timestamp := Js.Undefined;
     Index.device_name := None; Index.device_type := None;
     Index.username := None; Index.is_online := true;
     Index.last_seen := Js.Undefined; Index.battery_level := None |}.

Definition alice : Index.User :=
  {| Index.auth_id := "U"; Index.email := "alice@example.org" |}.

(** A viewer whose list shows the devices [a] and [b]. *)
Definition viewer : Index.World :=
  {| Index.page :=
       {| Index.user := Some alice; Index.deviceUUID := "device_1_abc";
          Index.deviceName := ""; Index.currentDevice := None;
          Index.isDeviceSetupComplete := false;
          Index.showDeviceNaming := false; Index.isOnline := true;
          Index.allDeviceLocations := [located "a" 1 1; located "b" 1 1] |};
     Index.db := {| Schema.devices := []; Schema.user_profiles := [];
                    Schema.location_history := [] |};
     Index.emitted := []; Index.toasts := []; Index.console := [];
     Index.dropped_promises := [] |}.

(** A location event for device [a]. *)
Definition fix_of_a : Socket.LocationEvent :=
  {| Socket.deviceId := "a";
     Socket.latitude := Some 1%R; Socket.longitude := Some 1%R;
     Socket.accuracy := None; Socket.speed := None; Socket.heading := None;
     Socket.altitude := None; Socket.timestamp := Some 1700000000000 |}.

(** Alice's phone as a row of [devices]. *)
Definition phone : Schema.Device :=
  {| Schema.id := "a"; Schema.user_id := "U";
     Schema.device_name := "Phone"; Schema.device_token := "device_1_abc";
     Schema.device_type := "mobile"; Schema.is_online := true;
     Schema.last_seen := Some 0; Schema.battery_level := Some 50 |}.

Definition store : Schema.Db :=
  {| Schema.devices := [phone]; Schema.user_profiles := [];
     Schema.location_history := [] |}.

(** The page of the phone once set up, the battery at 87 %. *)
Definition tracker : Index.World :=
  {| Index.page :=
       {| Index.user := Some alice; Index.deviceUUID := "device_1_abc";
          Index.deviceName := "Phone"; Index.currentDevice := Some phone;
          Index.isDeviceSetupComplete := true;
          Index.showDeviceNaming := false; Index.isOnline := true;
          Index.allDeviceLocations := [] |};
     Index.db := store;
     Index.emitted := []; Index.toasts := []; Index.console := [];
     Index.dropped_promises := [] |}.

Definition charged : Index.Navigator :=
  {| Index.getBattery := Some {| Index.level := 87 # 100 |} |}.

(** The relay over the same store, with one socket in [global] and one in
    the room of user [V]. *)
Definition relay : Socket.World :=
  {| Socket.db := store;
     Socket.sessions := {[ "s1" := {[ "global" ]};
                           "s2" := {[ Socket.user_room "V" ]} ]};
     Socket.outbox := []; Socket.console := [] |}.

(** The same store once user [U] has a profile row. *)
Definition store_with_profile : Schema.Db :=
  {| Schema.devices := [phone];
     Schema.user_profiles :=
       [{| Schema.profile_id := "U"; Schema.username := "alice";
           Schema.full_name := None |}];
     Schema.location_history := [] |}.

Definition relay_with_profile : Socket.World :=
  {| Socket.db := store_with_profile;
     Socket.sessions := {[ "s1" := {[ "global" ]};
                           "s2" := {[ Socket.user_room "V" ]} ]};
     Socket.outbox := []; Socket.console := [] |}.

Definition all_healthy : Socket.IngestFaults :=
  {| Socket.insert_fault := Schema.Healthy;
     Socket.update_fault := Schema.Healthy;
     Socket.select_fault := Schema.Healthy |}.

Definition outage : Schema.PostgrestError :=
  {| Schema.code := "503"; Schema.message := "service unavailable" |}.

Definition insert_refused : Socket.IngestFaults :=
  {| Socket.insert_fault := Schema.ErrorReply outage;
     Socket.update_fault := Schema.Healthy;
     Socket.select_fault := Schema.Healthy |}.

(** A status report of the phone. *)
Definition status_of_a : Socket.StatusEvent :=
  {| Socket.status_deviceId := "a"; Socket.isOnline := true;
     Socket.batteryLevel := None |}.

Definition empty_store : Schema.Db :=
  {| Schema.devices := []; Schema.user_profiles := [];
     Schema.location_history := [] |}.

(** 2023-11-14T22:13:20Z *)
Definition clock : Z := 1700000000000.
End Scenarios.


(** * Properties *)

(** ** Distance *)

Section Distance.
Local Open Scope R_scope.

Lemma sin_half_sq_swap (u v : R) :
  sin ((u - v) * PI / 180 / 2) * sin ((u - v) * PI / 180 / 2) =
  sin ((v - u) * PI / 180 / 2) * sin ((v - u) * PI / 180 / 2).
Proof.
  replace ((u - v) * PI / 180 / 2) with (- ((v - u) * PI / 180 / 2)) by field.
  rewrite sin_neg. ring.
Qed.

(** Over the real numbers the formula is symmetric in its two points. *)
Lemma calculateDistance_sym (lat1 lon1 lat2 lon2 : R) :
  Geo.calculateDistance lat1 lon1 lat2 lon2 =
  Geo.calculateDistance lat2 lon2 lat1 lon1.
Proof.
  unfold Geo.calculateDistance; cbv zeta.
  rewrite (sin_half_sq_swap lat2 lat1).
  rewrite !(Rmult_assoc _ (sin ((lon2 - lon1) * PI / 180 / 2))).
  rewrite (sin_half_sq_swap lon2 lon1).
  rewrite (Rmult_comm (cos (lat1 * PI / 180)) (cos (lat2 * PI / 180))).
  rewrite <- !Rmult_assoc. reflexivity.
Qed.



(** [atan2] on the diagonal of the first quadrant. *)
Lemma atan2_diag (x : R) : 0 < x -> Geo.atan2 x x = PI / 4.
Proof.
  intros Hx. unfold Geo.atan2.
  destruct (Rlt_dec 0 x) as [_ | H]; [| contradiction].
  replace (x / x) with 1 by (field; lra). apply atan_1.
Qed.

Lemma sin_PI4_sq : sin (PI / 4) * sin (PI / 4) = 1 / 2.
Proof.
  rewrite sin_PI4.
  assert (H2 : sqrt 2 * sqrt 2 = 2) by (apply sqrt_sqrt; lra).
  assert (Hpos : 0 < sqrt 2) by (apply sqrt_lt_R0; lra).
  field_simplify; [| lra]. rewrite <- H2 at 2. field. lra.
Qed.

(** From the equator at the Greenwich meridian a quarter of the way round:
    the closed form. *)
Lemma calculateDistance_quarter :
  Geo.calculateDistance 0 0 0 90 = 6371000 * (PI / 2).
Proof.
  unfold Geo.calculateDistance; cbv zeta.
  replace ((0 - 0) * PI / 180 / 2) with 0 by field.
  replace ((90 - 0) * PI / 180 / 2) with (PI / 4) by field.
  replace (0 * PI / 180) with 0 by field.
  rewrite sin_0, cos_0.
  replace (0 * 0 + 1 * 1 * sin (PI / 4) * sin (PI / 4))
    with (sin (PI / 4) * sin (PI / 4)) by ring.
  rewrite sin_PI4_sq.
  replace (1 - 1 / 2) with (1 / 2) by field.
  rewrite atan2_diag by (apply sqrt_lt_R0; lra).
  field.
Qed.

Lemma PI_bounds : 3.1415 < PI < 3.1416.
Proof.
  pose proof (PI_2_3_7_ineq 2) as [Hlo Hhi].
  unfold sum_f_R0, tg_alt, PI_2_3_7_tg, Ratan_seq in Hlo, Hhi.
  simpl in Hlo, Hhi.
  split; lra.
Qed.

(** C8.  Between (0,0) and (0,90) the haversine distance with radius
    6 371 000 m is within 0.1 % of 10 007 543 m. *)
Theorem distance_quarter_circumference :
  Rabs (Geo.calculateDistance 0 0 0 90 - 10007543) <= 10007543 / 1000.
Proof.
  rewrite calculateDistance_quarter.
  pose proof PI_bounds as [Hlo Hhi].
  apply Rabs_le. split; lra.
Qed.

End Distance.


(** ** Distance in doubles *)

Section DistanceInDoubles.
Import Double.
Local Open Scope double_scope.

Lemma sub_diag_finite (x : double) :
  is_finite x = true -> x - x = of_Z 0.
Proof.
  destruct x as [s | s | | s m e]; try discriminate; intros _.
  - destruct s; reflexivity.
  - unfold sub, SFsub. rewrite Z.sub_diag. reflexivity.
Qed.

Lemma mul_finite_zero (x : double) :
  is_finite x = true -> exists s, x * of_Z 0 = S754_zero s.
Proof.
  destruct x as [s | s | | s m e]; try discriminate; intros _;
    eexists; reflexivity.
Qed.

Lemma add_zero_zero (s : bool) : of_Z 0 + S754_zero s = of_Z 0.
Proof. destruct s; reflexivity. Qed.

(** The half-angle of two equal coordinates is [+0]. *)
Lemma half_angle_same (x : double) :
  is_finite x = true -> (x - x) * Math.PI / of_Z 180 / of_Z 2 = of_Z 0.
Proof. intros Hx. rewrite (sub_diag_finite x Hx). reflexivity. Qed.

(** From a point to itself the distance is [+0] in doubles as well, for
    every engine whose [Math.sin] and [Math.atan2] treat [+0] as ECMA-262
    prescribes and whose cosine of the latitude has a finite square (a
    cosine is at most 1 in absolute value). *)
Lemma double_distance_same_point (M : Math.t) (lat lon : double) :
  is_finite lat = true ->
  is_finite lon = true ->
  Math.sin M (of_Z 0) = of_Z 0 ->
  Math.atan2 M (of_Z 0) (of_Z 1) = of_Z 0 ->
  is_finite (Math.cos M (lat * Math.PI / of_Z 180)
             * Math.cos M (lat * Math.PI / of_Z 180)) = true ->
  GeoDouble.calculateDistance M lat lon lat lon = of_Z 0.
Proof.
  intros Hlat Hlon Hsin Hatan Hcos.
  unfold GeoDouble.calculateDistance, GeoDouble.haversine; cbv zeta.
  rewrite (half_angle_same lat Hlat), (half_angle_same lon Hlon), Hsin.
  destruct (mul_finite_zero _ Hcos) as [s Hs]. rewrite Hs.
  replace (S754_zero s * of_Z 0) with (S754_zero s)
    by (destruct s; reflexivity).
  replace (of_Z 0 * of_Z 0) with (of_Z 0) by reflexivity.
  rewrite add_zero_zero.
  replace (Math.sqrt (of_Z 0)) with (of_Z 0) by reflexivity.
  replace (Math.sqrt (of_Z 1 - of_Z 0)) with (of_Z 1) by reflexivity.
  rewrite Hatan. reflexivity.
Qed.

(** The functions of fdlibm meet these conditions at the point (12, 0). *)
Example double_distance_same_point_fdlibm
    (large : double -> Z * (double * double)) :
  GeoDouble.calculateDistance (Math.fdlibm large)
    (of_Z 12) (of_Z 0) (of_Z 12) (of_Z 0) = of_Z 0.
Proof. apply double_distance_same_point; reflexivity. Qed.

(** Between (0,0) and (0,90) the doubles give 10007543.398010286, less than
    a metre from the 10 007 543 m that the closed form over the reals is
    compared with. *)
Lemma double_distance_quarter (large : double -> Z * (double * double)) :
  GeoDouble.calculateDistance (Math.fdlibm large)
    (of_Z 0) (of_Z 0) (of_Z 0) (of_Z 90)
  = of_words 0x4163167E 0xECBC8011 /\
  ltb (abs (of_words 0x4163167E 0xECBC8011 - of_Z 10007543)) (of_Z 1) = true.
Proof. split; vm_compute; reflexivity. Qed.

(** The terms of [a] at (12, 0) and (-12, 180).  Half the difference of the
    latitudes is -0.20943951023931953 and its sine -0.20791169081775931;
    both latitudes have the cosine 0.9781476007338057; half the difference
    of the longitudes is 1.5707963267948966 and its sine 1.  The squared
    sine, 0.043227271178699546, and the product of the cosines,
    0.9567727288213006, add up to 1.0000000000000002, and the square root
    is taken of 1 - a = -2.220446049250313e-16. *)
Lemma antipodal_pair_terms (large : double -> Z * (double * double)) :
  (of_Z (-12) - of_Z 12) * Math.PI / of_Z 180 / of_Z 2
  = of_words 0xBFCACEE9 0xF37BEBD5 /\
  (of_Z 180 - of_Z 0) * Math.PI / of_Z 180 / of_Z 2
  = of_words 0x3FF921FB 0x54442D18 /\
  Math.sin (Math.fdlibm large) (of_words 0xBFCACEE9 0xF37BEBD5)
  = of_words 0xBFCA9CD9 0xAC4258F5 /\
  Math.cos (Math.fdlibm large) (of_Z 12 * Math.PI / of_Z 180)
  = of_words 0x3FEF4CFC 0x327A0080 /\
  Math.cos (Math.fdlibm large) (of_Z (-12) * Math.PI / of_Z 180)
  = of_words 0x3FEF4CFC 0x327A0080 /\
  Math.sin (Math.fdlibm large) (of_words 0x3FF921FB 0x54442D18) = of_Z 1 /\
  of_words 0xBFCA9CD9 0xAC4258F5 * of_words 0xBFCA9CD9 0xAC4258F5
  = of_words 0x3FA621E2 0x88040355 /\
  of_words 0x3FEF4CFC 0x327A0080 * of_words 0x3FEF4CFC 0x327A0080
  = of_words 0x3FEE9DE1 0xD77FBFCC /\
  of_words 0x3FA621E2 0x88040355
  + of_words 0x3FEE9DE1 0xD77FBFCC * of_Z 1 * of_Z 1
  = of_words 0x3FF00000 0x00000001 /\
  of_Z 1 - of_words 0x3FF00000 0x00000001
  = of_words 0xBCB00000 0x00000000 /\
  Math.sqrt (of_words 0xBCB00000 0x00000000) = NaN.
Proof. repeat split; vm_compute; reflexivity. Qed.

(** C7, where the code departs from it.  The points (12, 0) and (-12, 180)
    are antipodal.  The sum [a] of the squared sine and the product of the
    cosines is rounded to 1.0000000000000002, the next double above 1, so
    [Math.sqrt(1 - a)] is NaN and so is the distance, in either order of
    the two points; a NaN is equal to nothing, itself included, and
    [distance(a, b) == distance(b, a)] is false. *)
Theorem double_distance_is_NaN_for_an_antipodal_pair
    (large : double -> Z * (double * double)) :
  GeoDouble.haversine (Math.fdlibm large)
    (of_Z 12) (of_Z 0) (of_Z (-12)) (of_Z 180)
  = of_words 0x3FF00000 0x00000001 /\
  GeoDouble.calculateDistance (Math.fdlibm large)
    (of_Z 12) (of_Z 0) (of_Z (-12)) (of_Z 180) = NaN /\
  GeoDouble.calculateDistance (Math.fdlibm large)
    (of_Z (-12)) (of_Z 180) (of_Z 12) (of_Z 0) = NaN /\
  eqb (GeoDouble.calculateDistance (Math.fdlibm large)
         (of_Z 12) (of_Z 0) (of_Z (-12)) (of_Z 180))
      (GeoDouble.calculateDistance (Math.fdlibm large)
         (of_Z (-12)) (of_Z 180) (of_Z 12) (of_Z 0)) = false.
Proof. repeat split; vm_compute; reflexivity. Qed.

(** The same happens where no coordinate is 0 (a device with a coordinate
    0 is not among the valid devices of [showBothDevices]): (12, 10) and
    (-12, -170). *)
Lemma double_distance_is_NaN_without_a_zero_coordinate
    (large : double -> Z * (double * double)) :
  GeoDouble.calculateDistance (Math.fdlibm large)
    (of_Z 12) (of_Z 10) (of_Z (-12)) (of_Z (-170)) = NaN /\
  GeoDouble.calculateDistance (Math.fdlibm large)
    (of_Z (-12)) (of_Z (-170)) (of_Z 12) (of_Z 10) = NaN.
Proof. split; vm_compute; reflexivity. Qed.

End DistanceInDoubles.


(** ** Coordinates *)

Section Coordinates.
Local Open Scope R_scope.

Lemma truthy_coord_1 : MapComponent.truthy_coord (Some 1) = true.
Proof.
  unfold MapComponent.truthy_coord.
  destruct (Req_dec_T 1 0) as [H | _]; [exfalso; lra | reflexivity].
Qed.

Lemma truthy_coord_0 : MapComponent.truthy_coord (Some 0) = false.
Proof.
  unfold MapComponent.truthy_coord.
  destruct (Req_dec_T 0 0) as [_ | H]; [reflexivity | exfalso; lra].
Qed.

End Coordinates.


(** ** Presence classes *)

Section Presence.
Local Open Scope Z_scope.

(** The comparison of the minutes with a whole number of minutes is a
    comparison of the milliseconds. *)
Lemma num_lt_minutes (d m : Z) :
  MapComponent.num_lt (Some (inject_Z d / 1000 / 60)%Q) (inject_Z m)
  = (d <? m * 60000).
Proof.
  unfold MapComponent.num_lt.
  assert (Heq : (inject_Z d / 1000 / 60 == inject_Z d / 60000)%Q) by field.
  assert (Hiff : (inject_Z d / 1000 / 60 < inject_Z m)%Q <-> d < m * 60000).
  { rewrite Heq. unfold Qlt, Qdiv, Qmult, Qinv, inject_Z; simpl.
    rewrite Pos.mul_1_l. lia. }
  destruct (Qlt_le_dec _ _) as [Hlt | Hle]; symmetry.
  - apply Z.ltb_lt, Hiff, Hlt.
  - apply Z.ltb_ge, Z.nlt_ge. intros Hc. apply Hiff in Hc.
    exact (Qle_not_lt _ _ Hle Hc).
Qed.

(** A device without truthy coordinates gets no marker, hence no colour. *)
Lemma markerColor_without_coordinates
    (device : Index.DeviceLocation) (now : Z) :
  MapComponent.truthy_coord (Index.latitude device) = false \/
  MapComponent.truthy_coord (Index.longitude device) = false ->
  MapComponent.markerColor device now = None.
Proof.
  unfold MapComponent.markerColor.
  intros [-> | ->]; [reflexivity | rewrite orb_true_r; reflexivity].
Qed.

(** The colour of a marker as a function of the flag and of the value
    [new Date] is given. *)
Lemma markerColor_cases (device : Index.DeviceLocation) (now : Z) :
  MapComponent.truthy_coord (Index.latitude device) = true ->
  MapComponent.truthy_coord (Index.longitude device) = true ->
  MapComponent.markerColor device now =
  Some
    match Js.new_Date (Js.or_else (Index.timestamp device)
                                  (Index.last_seen device)) with
    | None => MapComponent.Red
    | Some t =>
        if Index.is_online device && (now - t <? 300000)
        then MapComponent.Green
        else if Index.is_online device && (now - t <? 1800000)
             then MapComponent.Yellow
             else MapComponent.Red
    end.
Proof.
  intros Hlat Hlon.
  unfold MapComponent.markerColor, MapComponent.timeDiff.
  rewrite Hlat, Hlon. cbn [negb orb]. f_equal.
  destruct (Js.new_Date _) as [t |]; unfold mbind, option_bind; cbv beta iota zeta.
  - change 5%Q with (inject_Z 5). change 30%Q with (inject_Z 30).
    rewrite !num_lt_minutes. reflexivity.
  - unfold MapComponent.num_lt. rewrite !andb_false_r. reflexivity.
Qed.

(** C2.  For a device that gets a marker (both coordinates truthy), with
    [v] the value of [device.timestamp || device.last_seen] that the code
    takes as the time last seen: the marker is red (offline) when the flag
    is off, and when [v] is missing: [undefined] makes an Invalid Date, and
    [null] is read by [new Date] as the epoch, so that it is more than 30
    minutes old for every clock that reads at least 30 minutes past
    1970-01-01T00:00Z; for a time [t], an online device is green (fresh)
    below 5 minutes of age, yellow (stale) from 5 to below 30 minutes, red
    (offline) from 30 minutes on. *)
Theorem marker_presence_classes (device : Index.DeviceLocation) (now : Z) :
  MapComponent.truthy_coord (Index.latitude device) = true ->
  MapComponent.truthy_coord (Index.longitude device) = true ->
  (Index.is_online device = false ->
     MapComponent.markerColor device now = Some MapComponent.Red) /\
  (Js.or_else (Index.timestamp device) (Index.last_seen device)
     = Js.Undefined ->
     MapComponent.markerColor device now = Some MapComponent.Red) /\
  (Js.or_else (Index.timestamp device) (Index.last_seen device) = Js.Null ->
     30 * 60 * 1000 <= now ->
     MapComponent.markerColor device now = Some MapComponent.Red) /\
  (forall t,
     Js.or_else (Index.timestamp device) (Index.last_seen device) = Js.Iso t ->
     Index.is_online device = true ->
     (now - t < 5 * 60 * 1000 ->
        MapComponent.markerColor device now = Some MapComponent.Green) /\
     (5 * 60 * 1000 <= now - t < 30 * 60 * 1000 ->
        MapComponent.markerColor device now = Some MapComponent.Yellow) /\
     (30 * 60 * 1000 <= now - t ->
        MapComponent.markerColor device now = Some MapComponent.Red)).
Proof.
  intros Hlat Hlon.
  rewrite (markerColor_cases device now Hlat Hlon).
  set (v := Js.or_else (Index.timestamp device) (Index.last_seen device)).
  refine (conj _ (conj _ (conj _ _))).
  - intros ->. destruct (Js.new_Date v); reflexivity.
  - intros ->. reflexivity.
  - intros -> Hnow. simpl.
    replace (now - 0 <? 300000) with false by (symmetry; apply Z.ltb_ge; lia).
    replace (now - 0 <? 1800000) with false by (symmetry; apply Z.ltb_ge; lia).
    rewrite !andb_false_r. reflexivity.
  - intros t -> ->. simpl. refine (conj _ (conj _ _)).
    + intros Hfresh.
      replace (now - t <? 300000) with true by (symmetry; apply Z.ltb_lt; lia).
      reflexivity.
    + intros [Hlo Hhi].
      replace (now - t <? 300000) with false by (symmetry; apply Z.ltb_ge; lia).
      replace (now - t <? 1800000) with true by (symmetry; apply Z.ltb_lt; lia).
      reflexivity.
    + intros Hold.
      replace (now - t <? 300000) with false by (symmetry; apply Z.ltb_ge; lia).
      replace (now - t <? 1800000) with false by (symmetry; apply Z.ltb_ge; lia).
      reflexivity.
Qed.

(** The four sample points of the specification, and a device without a
    time last seen, through the theorem: a device at (1, 1), the clock at
    2023-11-14T22:13:20Z. *)
Lemma marker_presence_classes_witness :
  let now := Scenarios.clock in
  MapComponent.markerColor (Scenarios.entry true (Js.Iso (now - 2 * 60000))) now
    = Some MapComponent.Green /\
  MapComponent.markerColor (Scenarios.entry true (Js.Iso (now - 10 * 60000))) now
    = Some MapComponent.Yellow /\
  MapComponent.markerColor (Scenarios.entry true (Js.Iso (now - 40 * 60000))) now
    = Some MapComponent.Red /\
  MapComponent.markerColor (Scenarios.entry false (Js.Iso now)) now
    = Some MapComponent.Red /\
  MapComponent.markerColor (Scenarios.entry true Js.Undefined) now
    = Some MapComponent.Red /\
  MapComponent.markerColor (Scenarios.entry true Js.Null) now
    = Some MapComponent.Red.
Proof.
  intros now. refine (conj _ (conj _ (conj _ (conj _ (conj _ _))))).
  - destruct (marker_presence_classes
                (Scenarios.entry true (Js.Iso (now - 2 * 60000))) now
                truthy_coord_1 truthy_coord_1)
      as (_ & _ & _ & H).
    apply (H (now - 2 * 60000));
      [reflexivity | reflexivity | unfold now, Scenarios.clock; lia].
  - destruct (marker_presence_classes
                (Scenarios.entry true (Js.Iso (now - 10 * 60000))) now
                truthy_coord_1 truthy_coord_1)
      as (_ & _ & _ & H).
    apply (H (now - 10 * 60000));
      [reflexivity | reflexivity | unfold now, Scenarios.clock; lia].
  - destruct (marker_presence_classes
                (Scenarios.entry true (Js.Iso (now - 40 * 60000))) now
                truthy_coord_1 truthy_coord_1)
      as (_ & _ & _ & H).
    apply (H (now - 40 * 60000));
      [reflexivity | reflexivity | unfold now, Scenarios.clock; lia].
  - destruct (marker_presence_classes
                (Scenarios.entry false (Js.Iso now)) now
                truthy_coord_1 truthy_coord_1) as (H & _).
    apply H. reflexivity.
  - destruct (marker_presence_classes
                (Scenarios.entry true Js.Undefined) now
                truthy_coord_1 truthy_coord_1) as (_ & H & _).
    apply H. reflexivity.
  - destruct (marker_presence_classes
                (Scenarios.entry true Js.Null) now
                truthy_coord_1 truthy_coord_1) as (_ & _ & H & _).
    apply H; [reflexivity | unfold now, Scenarios.clock; lia].
Defined.

End Presence.


(** ** Framing two devices *)

Section Viewport.
Local Open Scope R_scope.







(** A device on the equator or on the Greenwich meridian has a falsy
    coordinate and is not among the valid devices. *)
Lemma validDevices_drops_zero_coordinate :
  MapComponent.validDevices
    [Scenarios.located "a" 0 1; Scenarios.located "b" 1 1] ["a"; "b"]
  = [Scenarios.located "b" 1 1].
Proof.
  unfold MapComponent.validDevices.
  rewrite filter_cons_False.
  2:{ intros (_ & H & _). change (MapComponent.truthy_coord (Some 0) = true) in H.
      rewrite truthy_coord_0 in H. discriminate. }
  rewrite filter_cons_True.
  2:{ split; [rewrite !elem_of_cons; auto | split; exact truthy_coord_1]. }
  reflexivity.
Qed.

End Viewport.


(** ** The device list of the viewer *)

(** Unfolding of the handler monad. *)
Ltac eff_unfold :=
  unfold Eff.exec, Eff.completes, Eff.try_catch, mbind, eff_bind, Eff.bind,
    mret, eff_ret, Eff.ret, Eff.modify, Eff.get, Eff.throw in *.

Section DeviceList.

Lemma NoDup_fmap_filter {A B} (f : A -> B) (P : A -> Prop)
    `{!forall x, Decision (P x)} (l : list A) :
  NoDup (f <$> l) -> NoDup (f <$> filter P l).
Proof.
  induction l as [| x l IH]; intros Hnd; [constructor |].
  rewrite fmap_cons in Hnd. apply NoDup_cons in Hnd as [Hx Hl].
  rewrite filter_cons. destruct (decide (P x)) as [HP | HP].
  - rewrite fmap_cons. apply NoDup_cons. split; [| auto].
    intros Hin. apply Hx.
    apply list_elem_of_fmap in Hin as (y & -> & Hy).
    apply list_elem_of_filter in Hy as [_ Hy].
    apply list_elem_of_fmap_2, Hy.
  - auto.
Qed.

(** Replacing the entry of a device keeps one entry per device. *)
Lemma replace_entry_NoDup (id : string) (entry : Index.DeviceLocation)
    (prev : list Index.DeviceLocation) :
  Index.device_id entry = id ->
  NoDup (Index.device_id <$> prev) ->
  NoDup (Index.device_id <$> Index.replace_entry id entry prev).
Proof.
  intros Hid Hnd. unfold Index.replace_entry.
  rewrite fmap_app. apply NoDup_app. split; [| split].
  - apply NoDup_fmap_filter, Hnd.
  - intros x Hx Hin. simpl in Hin.
    apply list_elem_of_singleton in Hin. subst x.
    apply list_elem_of_fmap in Hx as (y & Hy & Hin).
    apply list_elem_of_filter in Hin as [Hne _].
    apply Hne. congruence.
  - simpl. apply NoDup_singleton.
Qed.

(** Reporting the status leaves the page as it is. *)
Lemma updateDeviceStatus_page (f : Schema.Fault) (nav : Index.Navigator)
    (now : Z) (b : bool) (w : Index.World) :
  Index.page (Eff.exec (Index.updateDeviceStatus f nav now b) w)
  = Index.page w.
Proof.
  unfold Index.updateDeviceStatus, Index.getBatteryLevel, Index.with_db,
    Index.console_error, Index.socket_emit, Index.drop_promise, Schema.call.
  eff_unfold. simpl.
  destruct (Index.currentDevice (Index.page w)) as [cur |]; [| reflexivity].
  destruct f as [| e | reason]; simpl; try reflexivity.
  - destruct (Schema.update_devices _ _ _) as [e | [[] db']]; simpl;
      destruct (Index.getBattery nav); reflexivity.
  - destruct (Index.getBattery nav); reflexivity.
Qed.

Lemma on_initial_position_locations (f : Schema.Fault)
    (nav : Index.Navigator) (device : Schema.Device) (c : Index.Coords)
    (now : Z) (w : Index.World) :
  Index.allDeviceLocations
    (Index.page (Eff.exec (Index.on_initial_position f nav device c now) w))
  = match Index.user (Index.page w) with
    | Some u =>
        Index.replace_entry (Schema.id device)
          (Index.local_entry device u c now)
          (Index.allDeviceLocations (Index.page w))
    | None => Index.allDeviceLocations (Index.page w)
    end.
Proof.
  unfold Index.on_initial_position.
  unfold Eff.exec, mbind, eff_bind, Eff.bind at 1.
  unfold Index.socket_emit at 1, Eff.modify at 1. cbv beta iota.
  unfold Eff.bind at 1, Eff.get at 1. cbv beta iota. simpl Index.page.
  destruct (Index.user (Index.page w)) as [u |]; [| reflexivity].
  unfold Eff.bind at 1, Index.set_state at 1, Eff.modify at 1.
  cbv beta iota.
  set (w1 := {| Index.page := _ |}).
  pose proof (updateDeviceStatus_page f nav now true w1) as Hpage.
  unfold Eff.exec in Hpage. unfold Eff.bind.
  destruct (Index.updateDeviceStatus f nav now true w1) as [[[] | e] w2];
    simpl in *; rewrite Hpage; reflexivity.
Qed.

(** C9.  If the list holds at most one entry per [device_id], it still
    does after a ['location-updated'] event and after the first position
    fix of the own device. *)
Theorem device_list_one_entry_per_device (w : Index.World) :
  NoDup (Index.device_id <$> Index.allDeviceLocations (Index.page w)) ->
  (forall (data : Socket.LocationEvent)
          (deviceInfo : option Schema.DeviceWithUser),
     NoDup (Index.device_id <$>
            Index.allDeviceLocations
              (Index.page
                 (Eff.exec (Index.on_location_updated data deviceInfo) w)))) /\
  (forall (f : Schema.Fault) (nav : Index.Navigator)
          (device : Schema.Device) (c : Index.Coords) (now : Z),
     NoDup (Index.device_id <$>
            Index.allDeviceLocations
              (Index.page
                 (Eff.exec
                    (Index.on_initial_position f nav device c now) w)))).
Proof.
  intros Hnd. split.
  - intros data deviceInfo.
    change (NoDup (Index.device_id <$>
                   Index.replace_entry (Socket.deviceId data)
                     (Index.broadcast_entry data deviceInfo)
                     (Index.allDeviceLocations (Index.page w)))).
    apply replace_entry_NoDup; [reflexivity | exact Hnd].
  - intros f nav device c now.
    rewrite on_initial_position_locations.
    destruct (Index.user (Index.page w)) as [u |]; [| exact Hnd].
    apply replace_entry_NoDup; [reflexivity | exact Hnd].
Qed.

(** A viewer that lists [a] and [b] and hears of [a] again lists [b] and
    [a]. *)
Lemma device_list_one_entry_per_device_witness :
  NoDup (Index.device_id <$>
         Index.allDeviceLocations
           (Index.page
              (Eff.exec
                 (Index.on_location_updated Scenarios.fix_of_a None)
                 Scenarios.viewer))) /\
  Index.device_id <$>
    Index.allDeviceLocations
      (Index.page
         (Eff.exec (Index.on_location_updated Scenarios.fix_of_a None)
                   Scenarios.viewer))
  = ["b"; "a"].
Proof.
  split.
  - apply (device_list_one_entry_per_device Scenarios.viewer).
    simpl. apply NoDup_cons. split.
    + rewrite list_elem_of_singleton. discriminate.
    + apply NoDup_singleton.
  - reflexivity.
Defined.

End DeviceList.


(** ** The ingest handlers *)

Section Ingest.
Local Open Scope Z_scope.

Ltac socket_unfold :=
  unfold Socket.on_location_update, Socket.on_device_status,
    Socket.destructure, Socket.with_db, Socket.emit, Socket.console_error,
    Schema.fails, Socket.device_info, Schema.call in *;
  eff_unfold.

(** Neither handler lets an exception out. *)
Lemma on_location_update_completes (f : Socket.IngestFaults) (now : Z)
    (data : option Socket.LocationEvent) (w : Socket.World) :
  Eff.completes (Socket.on_location_update f now data) w = true.
Proof.
  socket_unfold. destruct data as [d |]; [| reflexivity]. simpl.
  destruct (Socket.insert_fault f); simpl; try reflexivity.
  destruct (Schema.insert_location _ _) as [e | [[] db1]]; simpl;
    try reflexivity.
  destruct (Socket.update_fault f); simpl; try reflexivity.
  destruct (Schema.update_devices _ _ _) as [e | [[] db2]]; simpl;
    try reflexivity.
  destruct (Socket.select_fault f); simpl; try reflexivity.
  destruct (Schema.select_device_with_user _ _) as [e | [r db3]]; simpl;
    reflexivity.
Qed.

Lemma on_device_status_completes (f : Schema.Fault) (now : Z)
    (data : option Socket.StatusEvent) (w : Socket.World) :
  Eff.completes (Socket.on_device_status f now data) w = true.
Proof.
  socket_unfold. destruct data as [s |]; [| reflexivity]. simpl.
  destruct f; simpl; try reflexivity.
  destruct (Schema.update_devices _ _ _) as [e | [[] db1]]; reflexivity.
Qed.

(** A location event whose insert does not go through. *)
Lemma on_location_update_insert_fails (f : Socket.IngestFaults) (now : Z)
    (d : Socket.LocationEvent) (w : Socket.World) :
  Schema.fails (Socket.insert_fault f)
    (Schema.insert_location (Socket.location_row d now)) (Socket.db w) ->
  Socket.outbox (Eff.exec (Socket.on_location_update f now (Some d)) w)
    = Socket.outbox w /\
  Socket.db (Eff.exec (Socket.on_location_update f now (Some d)) w)
    = Socket.db w /\
  exists label,
    Socket.console (Eff.exec (Socket.on_location_update f now (Some d)) w)
    = Socket.console w ++ [label].
Proof.
  socket_unfold. simpl.
  destruct (Socket.insert_fault f); simpl.
  - destruct (Schema.insert_location _ _) as [e | [[] db1]]; simpl.
    + intros _. repeat split; eauto.
    + intros [x Hx]. discriminate.
  - intros _. repeat split; eauto.
  - intros _. repeat split; eauto.
Qed.

(** A location event whose insert went through and whose device update
    does not. *)
Lemma on_location_update_update_fails (f : Socket.IngestFaults) (now : Z)
    (d : Socket.LocationEvent) (w : Socket.World) (db1 : Schema.Db) :
  Socket.insert_fault f = Schema.Healthy ->
  Schema.insert_location (Socket.location_row d now) (Socket.db w)
    = inr (tt, db1) ->
  Schema.fails (Socket.update_fault f)
    (Schema.update_devices (Socket.has_id (Socket.deviceId d))
                           (Socket.touch now)) db1 ->
  Socket.outbox (Eff.exec (Socket.on_location_update f now (Some d)) w)
    = Socket.outbox w /\
  Socket.db (Eff.exec (Socket.on_location_update f now (Some d)) w) = db1 /\
  exists label,
    Socket.console (Eff.exec (Socket.on_location_update f now (Some d)) w)
    = Socket.console w ++ [label].
Proof.
  intros Hins Hrow. socket_unfold. simpl. rewrite Hins. simpl.
  rewrite Hrow. simpl.
  destruct (Socket.update_fault f); simpl.
  - destruct (Schema.update_devices _ _ _) as [e | [[] db2]]; simpl.
    + intros _. repeat split; eauto.
    + intros [x Hx]. discriminate.
  - intros _. repeat split; eauto.
  - intros _. repeat split; eauto.
Qed.

(** A status event whose update does not go through: nothing is emitted
    and no row changes; unless the request itself was rejected, nothing is
    logged either. *)
Lemma on_device_status_update_fails (f : Schema.Fault) (now : Z)
    (s : Socket.StatusEvent) (w : Socket.World) :
  Schema.fails f
    (Schema.update_devices (Socket.has_id (Socket.status_deviceId s))
                           (Socket.set_status s now)) (Socket.db w) ->
  Socket.outbox (Eff.exec (Socket.on_device_status f now (Some s)) w)
    = Socket.outbox w /\
  Socket.db (Eff.exec (Socket.on_device_status f now (Some s)) w)
    = Socket.db w /\
  ((forall reason, f <> Schema.Rejects reason) ->
   Socket.console (Eff.exec (Socket.on_device_status f now (Some s)) w)
   = Socket.console w).
Proof.
  socket_unfold. simpl.
  destruct f as [| e | reason]; simpl.
  - destruct (Schema.update_devices _ _ _) as [e | [[] db2]]; simpl.
    + intros _. repeat split; eauto.
    + intros [x Hx]. discriminate.
  - intros _. repeat split; eauto.
  - intros _. repeat split; eauto. intros Hne. destruct (Hne reason eq_refl).
Qed.

(** C3, as the code has it.  When the write of a ['location-update'] or of
    a ['device-status'] event does not go through (error in the response or
    request rejected), the handler emits nothing and returns normally.
    The error is not passed on to the caller: the location handler writes
    one line to the server console, and a status update answered with an
    error leaves the server exactly as it was. *)
Theorem failed_write_emits_nothing :
  (forall (f : Socket.IngestFaults) (now : Z) (d : Socket.LocationEvent)
          (w : Socket.World),
     Schema.fails (Socket.insert_fault f)
       (Schema.insert_location (Socket.location_row d now)) (Socket.db w) ->
     Socket.outbox (Eff.exec (Socket.on_location_update f now (Some d)) w)
       = Socket.outbox w /\
     (exists label,
        Socket.console (Eff.exec (Socket.on_location_update f now (Some d)) w)
        = Socket.console w ++ [label]) /\
     Eff.completes (Socket.on_location_update f now (Some d)) w = true) /\
  (forall (f : Socket.IngestFaults) (now : Z) (d : Socket.LocationEvent)
          (w : Socket.World) (db1 : Schema.Db),
     Socket.insert_fault f = Schema.Healthy ->
     Schema.insert_location (Socket.location_row d now) (Socket.db w)
       = inr (tt, db1) ->
     Schema.fails (Socket.update_fault f)
       (Schema.update_devices (Socket.has_id (Socket.deviceId d))
                              (Socket.touch now)) db1 ->
     Socket.outbox (Eff.exec (Socket.on_location_update f now (Some d)) w)
       = Socket.outbox w /\
     (exists label,
        Socket.console (Eff.exec (Socket.on_location_update f now (Some d)) w)
        = Socket.console w ++ [label]) /\
     Eff.completes (Socket.on_location_update f now (Some d)) w = true) /\
  (forall (f : Schema.Fault) (now : Z) (s : Socket.StatusEvent)
          (w : Socket.World),
     Schema.fails f
       (Schema.update_devices (Socket.has_id (Socket.status_deviceId s))
                              (Socket.set_status s now)) (Socket.db w) ->
     Socket.outbox (Eff.exec (Socket.on_device_status f now (Some s)) w)
       = Socket.outbox w /\
     Socket.db (Eff.exec (Socket.on_device_status f now (Some s)) w)
       = Socket.db w /\
     ((forall reason, f <> Schema.Rejects reason) ->
      Socket.console (Eff.exec (Socket.on_device_status f now (Some s)) w)
      = Socket.console w) /\
     Eff.completes (Socket.on_device_status f now (Some s)) w = true).
Proof.
  refine (conj _ (conj _ _)).
  - intros f now d w Hfail.
    destruct (on_location_update_insert_fails f now d w Hfail)
      as (Hout & _ & Hlog).
    auto using on_location_update_completes.
  - intros f now d w db1 Hins Hrow Hfail.
    destruct (on_location_update_update_fails f now d w db1 Hins Hrow Hfail)
      as (Hout & _ & Hlog).
    auto using on_location_update_completes.
  - intros f now s w Hfail.
    destruct (on_device_status_update_fails f now s w Hfail)
      as (Hout & Hdb & Hlog).
    auto using on_device_status_completes.
Qed.

(** A refused insert: nothing in the outbox, one line on the console. *)
Lemma failed_write_emits_nothing_witness :
  let w' := Eff.exec (Socket.on_location_update Scenarios.insert_refused
                        Scenarios.clock (Some Scenarios.fix_of_a))
                     Scenarios.relay in
  Socket.outbox w' = [] /\
  (exists label, Socket.console w' = [label]) /\
  Eff.completes (Socket.on_location_update Scenarios.insert_refused
                   Scenarios.clock (Some Scenarios.fix_of_a))
                Scenarios.relay = true.
Proof.
  destruct failed_write_emits_nothing as (Hinsert & _ & _).
  apply (Hinsert Scenarios.insert_refused Scenarios.clock Scenarios.fix_of_a
                 Scenarios.relay).
  exists Scenarios.outage. reflexivity.
Defined.

(** A status update the store answers with an error: the relay is left
    exactly as it was, so no socket, the sender's included, gets anything,
    and not even the console shows the error. *)
Lemma status_error_is_swallowed :
  let w' := Eff.exec (Socket.on_device_status
                        (Schema.ErrorReply Scenarios.outage)
                        Scenarios.clock (Some Scenarios.status_of_a))
                     Scenarios.relay in
  Schema.fails (Schema.ErrorReply Scenarios.outage)
    (Schema.update_devices
       (Socket.has_id (Socket.status_deviceId Scenarios.status_of_a))
       (Socket.set_status Scenarios.status_of_a Scenarios.clock))
    (Socket.db Scenarios.relay) /\
  w' = Scenarios.relay /\
  Socket.outbox w' = [] /\
  Socket.console w' = [] /\
  ~ (exists sid e, e ∈ Socket.outbox w' /\ Socket.receives w' sid e).
Proof.
  intros w'. refine (conj _ (conj _ (conj _ (conj _ _)))); try reflexivity.
  - exists Scenarios.outage. reflexivity.
  - intros (sid & e & Hin & _). inversion Hin.
Qed.

(** *** Fan-out of an accepted location event *)

Lemma user_room_inj (u v : string) :
  Socket.user_room u = Socket.user_room v -> u = v.
Proof. unfold Socket.user_room. apply (inj (String.app "user-")). Qed.

Lemma global_is_no_user_room (v : string) : "global" <> Socket.user_room v.
Proof. unfold Socket.user_room. intros H. vm_compute in H. discriminate. Qed.

(** A row the metadata query returns is a row of the view for that id. *)
Lemma device_info_Some (f : Schema.Fault) (deviceId : string)
    (db : Schema.Db) (info : Schema.DeviceWithUser) :
  Socket.device_info f deviceId db = Some info ->
  Schema.device info ∈ Schema.devices db /\
  Schema.id (Schema.device info) = deviceId.
Proof.
  unfold Socket.device_info, Schema.call, Schema.select_device_with_user.
  destruct f; simpl; try discriminate.
  destruct (filter _ (Schema.devices_with_users db)) as [| r [| r' rs]] eqn:Hf;
    simpl; try discriminate.
  intros [= ->].
  assert (Hin : info ∈ filter
            (fun r => Schema.id (Schema.device r) = deviceId)
            (Schema.devices_with_users db)).
  { rewrite Hf. apply list_elem_of_singleton. reflexivity. }
  apply list_elem_of_filter in Hin as [Hid Hview]. split; [| exact Hid].
  unfold Schema.devices_with_users in Hview.
  apply list_elem_of_bind in Hview as (dev & Hrow & Hdev).
  apply list_elem_of_bind in Hrow as (p & Hrow & _).
  apply list_elem_of_singleton in Hrow. subst info. exact Hdev.
Qed.

(** The two writes of an accepted event keep the owner of every row. *)
Lemma accepted_keeps_owner (now : Z) (d : Socket.LocationEvent)
    (db0 db1 db2 : Schema.Db) (dev' : Schema.Device) :
  Schema.insert_location (Socket.location_row d now) db0 = inr (tt, db1) ->
  Schema.update_devices (Socket.has_id (Socket.deviceId d))
    (Socket.touch now) db1 = inr (tt, db2) ->
  dev' ∈ Schema.devices db2 ->
  exists dev, dev ∈ Schema.devices db0 /\
              Schema.id dev' = Schema.id dev /\
              Schema.user_id dev' = Schema.user_id dev.
Proof.
  unfold Schema.insert_location, Schema.update_devices.
  destruct (negb _); [discriminate |].
  destruct (Schema.latitude _); [| discriminate].
  destruct (Schema.longitude _); [| discriminate].
  intros [= <-]. simpl.
  destruct (forallb _ _); [| discriminate].
  intros [= <-]. simpl. intros Hin.
  apply list_elem_of_fmap in Hin as (dev & -> & Hdev).
  exists dev. split; [exact Hdev |].
  unfold Schema.update_row. destruct (Socket.has_id _ dev); split; reflexivity.
Qed.

(** What an accepted event puts in the outbox. *)
Lemma on_location_update_accepted (f : Socket.IngestFaults) (now : Z)
    (d : Socket.LocationEvent) (w : Socket.World) (db1 db2 : Schema.Db) :
  Socket.insert_fault f = Schema.Healthy ->
  Socket.update_fault f = Schema.Healthy ->
  Schema.insert_location (Socket.location_row d now) (Socket.db w)
    = inr (tt, db1) ->
  Schema.update_devices (Socket.has_id (Socket.deviceId d))
    (Socket.touch now) db1 = inr (tt, db2) ->
  (forall reason, Socket.select_fault f <> Schema.Rejects reason) ->
  Socket.sessions (Eff.exec (Socket.on_location_update f now (Some d)) w)
    = Socket.sessions w /\
  Socket.outbox (Eff.exec (Socket.on_location_update f now (Some d)) w)
    = Socket.outbox w ++
      Socket.mkEmission "global" "location-updated"
        (Socket.LocationPayload d
           (Socket.device_info (Socket.select_fault f) (Socket.deviceId d) db2))
      :: match Socket.device_info (Socket.select_fault f)
                 (Socket.deviceId d) db2 with
         | Some info =>
             [Socket.mkEmission
                (Socket.user_room (Schema.user_id (Schema.device info)))
                "device-location-updated"
                (Socket.LocationPayload d (Some info))]
         | None => []
         end.
Proof.
  intros Hins Hupd Hrow1 Hrow2 Hsel. socket_unfold. simpl.
  rewrite Hins. simpl. rewrite Hrow1. simpl.
  rewrite Hupd. simpl. rewrite Hrow2. simpl.
  destruct (Socket.select_fault f) as [| e | reason]; simpl.
  - destruct (Schema.select_device_with_user _ _) as [e | [r db3]]; simpl.
    + split; reflexivity.
    + split; [reflexivity |]. rewrite <- app_assoc. reflexivity.
  - split; reflexivity.
  - destruct (Hsel reason eq_refl).
Qed.

(** C5, as the code has it.  For a location event whose two writes went
    through and whose metadata query was not rejected, the relay emits
    ['location-updated'] with the raw fields and the metadata row (or null)
    to [global]; when the query returned the row, it also emits the same
    payload as ['device-location-updated'] to the room of the device's
    owner, and otherwise to no user room.  Every socket in [global] gets
    the first emission; a socket that is only in the room of another user
    gets none of the two. *)
Theorem accepted_location_fan_out
    (f : Socket.IngestFaults) (now : Z) (d : Socket.LocationEvent)
    (w : Socket.World) (db1 db2 : Schema.Db) :
  Socket.insert_fault f = Schema.Healthy ->
  Socket.update_fault f = Schema.Healthy ->
  Schema.insert_location (Socket.location_row d now) (Socket.db w)
    = inr (tt, db1) ->
  Schema.update_devices (Socket.has_id (Socket.deviceId d))
    (Socket.touch now) db1 = inr (tt, db2) ->
  (forall reason, Socket.select_fault f <> Schema.Rejects reason) ->
  Socket.outbox (Eff.exec (Socket.on_location_update f now (Some d)) w)
    = Socket.outbox w ++
      Socket.mkEmission "global" "location-updated"
        (Socket.LocationPayload d
           (Socket.device_info (Socket.select_fault f) (Socket.deviceId d) db2))
      :: match Socket.device_info (Socket.select_fault f)
                 (Socket.deviceId d) db2 with
         | Some info =>
             [Socket.mkEmission
                (Socket.user_room (Schema.user_id (Schema.device info)))
                "device-location-updated"
                (Socket.LocationPayload d (Some info))]
         | None => []
         end /\
  (forall (sid : string) (rooms : gset string),
     Socket.sessions w !! sid = Some rooms ->
     "global" ∈ rooms ->
     Socket.receives
       (Eff.exec (Socket.on_location_update f now (Some d)) w) sid
       (Socket.mkEmission "global" "location-updated"
          (Socket.LocationPayload d
             (Socket.device_info (Socket.select_fault f)
                                 (Socket.deviceId d) db2)))) /\
  (forall (U : string),
     (forall dev, dev ∈ Schema.devices (Socket.db w) ->
                  Schema.id dev = Socket.deviceId d ->
                  Schema.user_id dev = U) ->
     (forall info,
        Socket.device_info (Socket.select_fault f) (Socket.deviceId d) db2
          = Some info ->
        Schema.user_id (Schema.device info) = U) /\
     (forall (sid V : string),
        Socket.sessions w !! sid = Some {[ Socket.user_room V ]} ->
        V <> U ->
        forall e,
          e ∈ Socket.outbox
                (Eff.exec (Socket.on_location_update f now (Some d)) w) ->
          Socket.receives
            (Eff.exec (Socket.on_location_update f now (Some d)) w) sid e ->
          e ∈ Socket.outbox w)).
Proof.
  intros Hins Hupd Hrow1 Hrow2 Hsel.
  destruct (on_location_update_accepted f now d w db1 db2
              Hins Hupd Hrow1 Hrow2 Hsel) as [Hsess Hout].
  split; [exact Hout |].
  split.
  { intros sid rooms Hlook Hglobal. exists rooms.
    rewrite Hsess. split; assumption. }
  intros U Howner.
  assert (Hinfo : forall info,
            Socket.device_info (Socket.select_fault f) (Socket.deviceId d) db2
              = Some info ->
            Schema.user_id (Schema.device info) = U).
  { intros info Hsome.
    apply device_info_Some in Hsome as [Hin Hid].
    destruct (accepted_keeps_owner now d _ _ _ _ Hrow1 Hrow2 Hin)
      as (dev & Hdev & Hid' & Huser).
    rewrite Huser. apply Howner; [exact Hdev | congruence]. }
  split; [exact Hinfo |].
  intros sid V Hrooms Hne e He Hrecv.
  rewrite Hout in He. apply elem_of_app in He as [He | He]; [exact He |].
  exfalso. destruct Hrecv as (rooms & Hlook & Hroom).
  rewrite Hsess, Hrooms in Hlook. injection Hlook as <-.
  apply elem_of_singleton in Hroom.
  apply elem_of_cons in He as [-> | He].
  - simpl in Hroom. exact (global_is_no_user_room V Hroom).
  - destruct (Socket.device_info _ _ _) as [info |] eqn:Hsome.
    + apply list_elem_of_singleton in He. subst e. simpl in Hroom.
      apply user_room_inj in Hroom. apply Hne. rewrite <- Hroom.
      apply Hinfo. reflexivity.
    + inversion He.
Qed.

(** The phone's owner has a profile: one emission to [global], one to the
    owner's room, and the socket in the room of user [V] gets neither. *)
Lemma accepted_location_fan_out_witness :
  let w' := Eff.exec (Socket.on_location_update Scenarios.all_healthy
                        Scenarios.clock (Some Scenarios.fix_of_a))
                     Scenarios.relay_with_profile in
  Socket.room <$> Socket.outbox w' = ["global"; Socket.user_room "U"] /\
  Socket.event <$> Socket.outbox w'
    = ["location-updated"; "device-location-updated"] /\
  forall e, e ∈ Socket.outbox w' -> ~ Socket.receives w' "s2" e.
Proof.
  intros w'. refine (conj eq_refl (conj eq_refl _)).
  intros e He Hrecv.
  assert (Hrow1 : exists db1,
            Schema.insert_location
              (Socket.location_row Scenarios.fix_of_a Scenarios.clock)
              (Socket.db Scenarios.relay_with_profile) = inr (tt, db1))
    by (eexists; reflexivity).
  destruct Hrow1 as [db1 Hrow1].
  assert (Hrow2 : exists db2,
            Schema.update_devices
              (Socket.has_id (Socket.deviceId Scenarios.fix_of_a))
              (Socket.touch Scenarios.clock) db1 = inr (tt, db2)).
  { injection Hrow1 as <-. eexists. reflexivity. }
  destruct Hrow2 as [db2 Hrow2].
  assert (Hsel : forall reason,
            Socket.select_fault Scenarios.all_healthy
            <> Schema.Rejects reason) by discriminate.
  destruct (accepted_location_fan_out Scenarios.all_healthy Scenarios.clock
              Scenarios.fix_of_a Scenarios.relay_with_profile db1 db2
              eq_refl eq_refl Hrow1 Hrow2 Hsel) as (_ & _ & Hrooms).
  destruct (Hrooms "U") as [_ Hnone].
  { intros dev Hdev _. apply list_elem_of_singleton in Hdev. subst dev.
    reflexivity. }
  assert (Hin : e ∈ Socket.outbox Scenarios.relay_with_profile).
  { apply (Hnone "s2" "V"); [reflexivity | discriminate | exact He | exact Hrecv]. }
  inversion Hin.
Defined.

(** The phone's owner has no row in [user_profiles]: both writes go
    through, the view has no row for the device, and the only emission is
    the one to [global]; the owner's room gets nothing. *)
Lemma owner_without_profile_is_not_notified :
  let w' := Eff.exec (Socket.on_location_update Scenarios.all_healthy
                        Scenarios.clock (Some Scenarios.fix_of_a))
                     Scenarios.relay in
  Schema.user_id <$> filter (fun dev => Schema.id dev = "a")
                            (Schema.devices (Socket.db Scenarios.relay))
    = ["U"] /\
  Schema.location_history (Socket.db w')
    = [Socket.location_row Scenarios.fix_of_a Scenarios.clock] /\
  Schema.last_seen <$> Schema.devices (Socket.db w') = [Some Scenarios.clock] /\
  Socket.outbox w'
    = [Socket.mkEmission "global" "location-updated"
         (Socket.LocationPayload Scenarios.fix_of_a None)] /\
  ~ (exists e, e ∈ Socket.outbox w' /\ Socket.room e = Socket.user_room "U").
Proof.
  intros w'.
  refine (conj eq_refl (conj eq_refl (conj eq_refl (conj eq_refl _)))).
  intros (e & He & Hroom).
  apply list_elem_of_singleton in He. subst e.
  exact (global_is_no_user_room "U" Hroom).
Qed.

End Ingest.


(** ** The periodic offline check *)

Section Sweep.
Local Open Scope Z_scope.

(** The filter of the checker, spelled out. *)
Lemma gone_quiet_spec (now : Z) (d : Schema.Device) :
  Socket.gone_quiet now d = true <->
  Schema.is_online d = true /\
  exists t, Schema.last_seen d = Some t /\ t < now - 2 * 60 * 1000.
Proof.
  unfold Socket.gone_quiet.
  destruct (Schema.last_seen d) as [t |].
  - rewrite andb_true_iff, Z.ltb_lt. split.
    + intros [Hlt Hon]. split; [exact Hon | exists t; split; [reflexivity | exact Hlt]].
    + intros [Hon (t' & [= <-] & Hlt)]. split; assumption.
  - split; [discriminate |]. intros [_ (t & Habs & _)]. discriminate.
Qed.

Lemma set_offline_passes_check (P : Schema.Device -> Prop)
    `{!forall d, Decision (P d)} (ds : list Schema.Device) :
  Forall (fun d => Schema.battery_ok d = true) ds ->
  forallb Schema.battery_ok (Socket.set_offline <$> filter P ds) = true.
Proof.
  intros Hok. apply forallb_forall. intros d' Hin.
  apply list_elem_of_In in Hin.
  apply list_elem_of_fmap in Hin as (d & -> & Hd).
  apply list_elem_of_filter in Hd as [_ Hd].
  rewrite Forall_forall in Hok. exact (Hok d Hd).
Qed.

(** A tick the store carries out: the table afterwards, and the broadcast,
    which goes out whether or not a row was changed. *)
Lemma offline_check_healthy (now : Z) (w : Socket.World) :
  Schema.checked (Socket.db w) ->
  Schema.devices
    (Socket.db (Eff.exec (Socket.offline_check Schema.Healthy now) w))
    = Schema.update_row (Socket.gone_quiet now) Socket.set_offline
        <$> Schema.devices (Socket.db w) /\
  Socket.outbox (Eff.exec (Socket.offline_check Schema.Healthy now) w)
    = Socket.outbox w
      ++ [Socket.mkEmission "global" "devices-offline-check" Socket.NoPayload].
Proof.
  intros Hok.
  unfold Socket.offline_check, Socket.with_db, Socket.emit,
    Socket.console_error, Schema.call, Schema.update_devices.
  eff_unfold. simpl.
  rewrite (set_offline_passes_check _ _ Hok). simpl. split; reflexivity.
Qed.

(** C1.  On a tick the store carries out, a device row is set offline when
    it is online and was last seen more than two minutes before [now], and
    only its flag changes; every other row stays as it is; and when some row
    qualified, ['devices-offline-check'] has been emitted to [global]. *)
Theorem offline_check_demotes_quiet_online_devices
    (now : Z) (w : Socket.World) :
  Schema.checked (Socket.db w) ->
  (forall (i : nat) (d : Schema.Device),
     Schema.devices (Socket.db w) !! i = Some d ->
     exists d',
       Schema.devices
         (Socket.db (Eff.exec (Socket.offline_check Schema.Healthy now) w))
         !! i = Some d' /\
       ((Schema.is_online d = true /\
         exists t, Schema.last_seen d = Some t /\ t < now - 2 * 60 * 1000) ->
        Schema.is_online d' = false /\ d' = Socket.set_offline d) /\
       (~ (Schema.is_online d = true /\
           exists t, Schema.last_seen d = Some t /\ t < now - 2 * 60 * 1000) ->
        d' = d)) /\
  length (Schema.devices
            (Socket.db (Eff.exec (Socket.offline_check Schema.Healthy now) w)))
    = length (Schema.devices (Socket.db w)) /\
  ((exists d, d ∈ Schema.devices (Socket.db w) /\
              Schema.is_online d = true /\
              exists t, Schema.last_seen d = Some t /\
                        t < now - 2 * 60 * 1000) ->
   Socket.mkEmission "global" "devices-offline-check" Socket.NoPayload
     ∈ Socket.outbox (Eff.exec (Socket.offline_check Schema.Healthy now) w)).
Proof.
  intros Hok.
  destruct (offline_check_healthy now w Hok) as [Hdevs Hout].
  rewrite Hdevs, Hout. refine (conj _ (conj _ _)).
  - intros i d Hi. rewrite list_lookup_fmap, Hi. simpl.
    eexists. split; [reflexivity |].
    unfold Schema.update_row.
    destruct (Socket.gone_quiet now d) eqn:Hq.
    + split; [intros _; split; reflexivity |].
      intros Hnot. exfalso. apply Hnot, gone_quiet_spec, Hq.
    + split; [| reflexivity].
      intros Hyes. apply gone_quiet_spec in Hyes. congruence.
  - apply length_fmap.
  - intros _. apply elem_of_app. right. apply list_elem_of_singleton.
    reflexivity.
Qed.

(** The device reports at t = 0 and the tick runs at t = 3 min: the row is
    offline afterwards and the notification is in the outbox. *)
Lemma offline_check_demotes_quiet_online_devices_witness :
  let now := 3 * 60 * 1000 in
  let w' := Eff.exec (Socket.offline_check Schema.Healthy now)
                     Scenarios.relay in
  (exists d',
     Schema.devices (Socket.db w') !! 0%nat = Some d' /\
     Schema.is_online d' = false /\
     d' = Socket.set_offline Scenarios.phone) /\
  Socket.mkEmission "global" "devices-offline-check" Socket.NoPayload
    ∈ Socket.outbox w'.
Proof.
  intros now w'.
  assert (Hok : Schema.checked (Socket.db Scenarios.relay)).
  { repeat constructor. }
  assert (Hquiet : Schema.is_online Scenarios.phone = true /\
                   exists t, Schema.last_seen Scenarios.phone = Some t /\
                             t < now - 2 * 60 * 1000).
  { split; [reflexivity |]. exists 0. split; [reflexivity |].
    unfold now. lia. }
  destruct (offline_check_demotes_quiet_online_devices now Scenarios.relay Hok)
    as (Hrows & _ & Hcast).
  split.
  - destruct (Hrows 0%nat Scenarios.phone eq_refl) as (d' & Hd' & Hyes & _).
    exists d'. split; [exact Hd' |]. apply Hyes, Hquiet.
  - apply Hcast. exists Scenarios.phone. split.
    + apply list_elem_of_singleton. reflexivity.
    + exact Hquiet.
Defined.

(** The notification also goes out on a tick that changes nothing. *)
Lemma offline_check_broadcasts_on_an_idle_tick :
  let w' := Eff.exec (Socket.offline_check Schema.Healthy 60000)
                     Scenarios.relay in
  Schema.devices (Socket.db w') = Schema.devices (Socket.db Scenarios.relay) /\
  Socket.outbox w'
  = [Socket.mkEmission "global" "devices-offline-check" Socket.NoPayload].
Proof. split; reflexivity. Qed.

(** A tick whose statement the store refuses, or whose request fails,
    changes no row and emits nothing. *)
Lemma offline_check_failed (f : Schema.Fault) (now : Z) (w : Socket.World) :
  f <> Schema.Healthy ->
  Socket.db (Eff.exec (Socket.offline_check f now) w) = Socket.db w /\
  Socket.outbox (Eff.exec (Socket.offline_check f now) w) = Socket.outbox w.
Proof.
  intros Hf. destruct f as [| e | reason]; [congruence | |]; split; reflexivity.
Qed.

End Sweep.


(** ** Device registration *)

Section Registration.

(** An insert that goes through returns the row it was given and appends
    it; no row with its token was there. *)
Lemma insert_device_inr (d a : Schema.Device) (db db' : Schema.Db) :
  Schema.insert_device d db = inr (a, db') ->
  a = d /\
  db' = Schema.set_devices (Schema.devices db ++ [d]) db /\
  Schema.device_token d ∉ Schema.device_token <$> Schema.devices db.
Proof.
  unfold Schema.insert_device.
  destruct (bool_decide (Schema.id d ∈ _)); [discriminate |].
  destruct (bool_decide (Schema.device_token d ∈ _)) eqn:Htok; [discriminate |].
  intros [= <- <-]. apply bool_decide_eq_false in Htok. auto.
Qed.

(** No row carries the token, so none matches token and owner. *)
Lemma rows_for_fresh_token (token owner : string) (db : Schema.Db) :
  token ∉ Schema.device_token <$> Schema.devices db ->
  Schema.rows_for token owner db = [].
Proof.
  intros Hfresh. unfold Schema.rows_for.
  induction (Schema.devices db) as [| d ds IH]; [reflexivity |].
  rewrite fmap_cons, not_elem_of_cons in Hfresh. destruct Hfresh as [Hd Hds].
  rewrite filter_cons_False; [apply IH, Hds |].
  intros [Htok _]. congruence.
Qed.

(** The submit action, taken with no device in hand. *)
Lemma saveDeviceName_outcome (u : Index.User) (token : string)
    (store : Schema.Db) (insert : Schema.Fault) (uuid : string)
    (w : Index.World) :
  token <> "" ->
  Index.deviceUUID (Index.page w) = token ->
  Index.user (Index.page w) = Some u ->
  Index.db w = store ->
  Index.currentDevice (Index.page w) = None ->
  Index.Outcome u token store (Eff.exec (Index.saveDeviceName insert uuid) w).
Proof.
  intros Hne Htok Huser Hdb Hcur.
  unfold Index.saveDeviceName, Index.with_db, Index.set_state, Index.toast,
    Index.console_error, Schema.call.
  eff_unfold. cbv beta iota. simpl fst. simpl snd.
  destruct (bool_decide (Index.trim _ = "")).
  { apply Index.NoDevice; simpl; assumption. }
  rewrite Huser. simpl.
  destruct insert as [| e | reason]; simpl.
  - rewrite Hdb.
    destruct (Schema.insert_device _ store) as [e | [a db']] eqn:Hins; simpl.
    + apply Index.NoDevice; simpl; [reflexivity | congruence].
    + apply insert_device_inr in Hins as (-> & -> & Hfresh).
      simpl in Hfresh. rewrite Htok in Hfresh.
      eapply Index.Created; simpl;
        [exact Hne | reflexivity | reflexivity | exact Htok | reflexivity
        | exact Hfresh].
  - apply Index.NoDevice; simpl; congruence.
  - apply Index.NoDevice; simpl; congruence.
Qed.

Lemma setup_run_outcome (u : Index.User) (token : string) (online : bool)
    (store : Schema.Db) (lookup insert : Schema.Fault) (name uuid : string) :
  Index.Outcome u token store
    (Index.setup_run u token online store lookup insert name uuid).
Proof.
  unfold Index.setup_run, Index.setup_flow, Index.checkAndCreateDevice,
    Index.use_or_name, Index.with_db, Index.set_state, Index.toast,
    Index.console_error, Schema.call, Schema.select_devices.
  unfold Eff.exec, Eff.try_catch, mbind, eff_bind, Eff.bind,
    mret, eff_ret, Eff.ret, Eff.modify, Eff.get.
  simpl.
  destruct (decide (token = "")) as [-> | Hne].
  { simpl. apply Index.NoDevice; reflexivity. }
  rewrite bool_decide_eq_false_2 by exact Hne.
  destruct lookup as [| e | reason]; simpl.
  - destruct (Schema.rows_for token (Index.auth_id u) store)
      as [| d rest] eqn:Hrows; simpl.
    + apply saveDeviceName_outcome; [exact Hne | reflexivity ..].
    + eapply Index.Reused; simpl; eauto.
  - destruct (bool_decide (Schema.code e <> "PGRST116")); simpl.
    + apply Index.NoDevice; reflexivity.
    + apply saveDeviceName_outcome; [exact Hne | reflexivity ..].
  - apply Index.NoDevice; reflexivity.
Qed.

(** With the lookup answered and a matching row in the table, the run
    takes the first such row and writes nothing. *)
Lemma setup_run_reuses (u : Index.User) (token : string) (online : bool)
    (store : Schema.Db) (insert : Schema.Fault) (name uuid : string)
    (d : Schema.Device) (rest : list Schema.Device) :
  token <> "" ->
  Schema.rows_for token (Index.auth_id u) store = d :: rest ->
  Index.currentDevice
    (Index.page
       (Index.setup_run u token online store Schema.Healthy insert name uuid))
    = Some d /\
  Index.db
    (Index.setup_run u token online store Schema.Healthy insert name uuid)
    = store.
Proof.
  intros Hne Hrows.
  unfold Index.setup_run, Index.setup_flow, Index.checkAndCreateDevice,
    Index.use_or_name, Index.with_db, Index.set_state, Index.toast,
    Index.console_error, Schema.call, Schema.select_devices.
  unfold Eff.exec, Eff.try_catch, mbind, eff_bind, Eff.bind,
    mret, eff_ret, Eff.ret, Eff.modify, Eff.get.
  simpl. rewrite bool_decide_eq_false_2 by exact Hne. simpl.
  rewrite Hrows. simpl. split; reflexivity.
Qed.

Lemma rows_for_appended (token owner : string) (store : Schema.Db)
    (d : Schema.Device) :
  Schema.device_token d = token ->
  Schema.user_id d = owner ->
  Schema.rows_for token owner
    (Schema.set_devices (Schema.devices store ++ [d]) store)
  = Schema.rows_for token owner store ++ [d].
Proof.
  intros Htok Huser. unfold Schema.rows_for. simpl.
  rewrite filter_app. f_equal.
  rewrite filter_cons_True by (split; assumption). reflexivity.
Qed.

(** A run never takes the number of rows for the pair above one, unless it
    was above one before. *)
Lemma setup_run_rows (u : Index.User) (token : string) (online : bool)
    (store : Schema.Db) (lookup insert : Schema.Fault) (name uuid : string) :
  length (Schema.rows_for token (Index.auth_id u)
            (Index.db (Index.setup_run u token online store
                                       lookup insert name uuid)))
  <= Nat.max 1 (length (Schema.rows_for token (Index.auth_id u) store)).
Proof.
  destruct (setup_run_outcome u token online store lookup insert name uuid)
    as [Hdb _ | d rest _ Hdb _ _ | d _ Hdb _ Htok Huser Hfresh];
    rewrite Hdb.
  - lia.
  - lia.
  - rewrite rows_for_appended by assumption.
    rewrite (rows_for_fresh_token _ _ _ Hfresh). simpl. lia.
Qed.

(** C6.  Two runs of the setup flow for the same owner and install token,
    the second on the table the first has left: when the first run ends
    with a device and the second lookup is answered, the second run ends
    with the same device and writes nothing; a run on a table that already
    has a row for the pair creates none; and the two runs together leave at
    most one row for the pair, if there was at most one before. *)
Theorem setup_twice_same_device
    (u : Index.User) (token : string) (store : Schema.Db)
    (online1 online2 : bool) (lookup1 insert1 lookup2 insert2 : Schema.Fault)
    (name1 uuid1 name2 uuid2 : string) :
  (forall d : Schema.Device,
     Index.currentDevice
       (Index.page (Index.setup_run u token online1 store
                                    lookup1 insert1 name1 uuid1)) = Some d ->
     lookup2 = Schema.Healthy ->
     Index.currentDevice
       (Index.page
          (Index.setup_run u token online2
             (Index.db (Index.setup_run u token online1 store
                                        lookup1 insert1 name1 uuid1))
             lookup2 insert2 name2 uuid2)) = Some d /\
     Index.db
       (Index.setup_run u token online2
          (Index.db (Index.setup_run u token online1 store
                                     lookup1 insert1 name1 uuid1))
          lookup2 insert2 name2 uuid2)
     = Index.db (Index.setup_run u token online1 store
                                 lookup1 insert1 name1 uuid1)) /\
  (Schema.rows_for token (Index.auth_id u) store <> [] ->
   Index.db (Index.setup_run u token online1 store
                             lookup1 insert1 name1 uuid1) = store) /\
  length
    (Schema.rows_for token (Index.auth_id u)
       (Index.db
          (Index.setup_run u token online2
             (Index.db (Index.setup_run u token online1 store
                                        lookup1 insert1 name1 uuid1))
             lookup2 insert2 name2 uuid2)))
  <= Nat.max 1 (length (Schema.rows_for token (Index.auth_id u) store)).
Proof.
  refine (conj _ (conj _ _)).
  - intros d Hcur ->.
    destruct (setup_run_outcome u token online1 store
                lookup1 insert1 name1 uuid1)
      as [_ Hnone | d0 rest Hne Hdb Hsome Hrows
          | d0 Hne Hdb Hsome Htok Huser Hfresh].
    + congruence.
    + rewrite Hdb. assert (d0 = d) as -> by congruence.
      exact (setup_run_reuses u token online2 store insert2 name2 uuid2
               d rest Hne Hrows).
    + rewrite Hdb. assert (d0 = d) as -> by congruence.
      apply (setup_run_reuses u token online2 _ insert2 name2 uuid2 d []);
        [exact Hne |].
      rewrite rows_for_appended by assumption.
      rewrite (rows_for_fresh_token _ _ _ Hfresh). reflexivity.
  - intros Hrows.
    destruct (setup_run_outcome u token online1 store
                lookup1 insert1 name1 uuid1)
      as [Hdb _ | d0 rest _ Hdb _ _ | d0 _ _ _ _ _ Hfresh]; try exact Hdb.
    destruct Hrows. apply rows_for_fresh_token, Hfresh.
  - etransitivity; [apply setup_run_rows |].
    pose proof (setup_run_rows u token online1 store
                  lookup1 insert1 name1 uuid1). lia.
Qed.

(** On an empty table the first run creates the device the user names
    Phone; the second run, whatever is typed, ends with that device, and
    the table still has one row. *)
Lemma setup_twice_same_device_witness :
  let first := Index.setup_run Scenarios.alice "device_1_abc" true
                 Scenarios.empty_store Schema.Healthy Schema.Healthy
                 " Phone " "a" in
  let second := Index.setup_run Scenarios.alice "device_1_abc" true
                  (Index.db first) Schema.Healthy Schema.Healthy
                  "Other" "b" in
  Schema.id <$> Index.currentDevice (Index.page first) = Some "a" /\
  Index.currentDevice (Index.page second)
    = Index.currentDevice (Index.page first) /\
  Index.db second = Index.db first /\
  Schema.device_name <$> Schema.devices (Index.db second) = ["Phone"].
Proof.
  intros first second.
  destruct (setup_twice_same_device Scenarios.alice "device_1_abc"
              Scenarios.empty_store true true
              Schema.Healthy Schema.Healthy Schema.Healthy Schema.Healthy
              " Phone " "a" "Other" "b") as (Hsame & _ & _).
  destruct (Hsame (Index.new_device "a" Scenarios.alice
                     (Index.setDeviceName " Phone "
                        (Index.loaded_page Scenarios.alice
                                           "device_1_abc" true)))
                  eq_refl eq_refl) as [Hcur Hdb].
  refine (conj eq_refl (conj _ (conj _ eq_refl))).
  - exact Hcur.
  - exact Hdb.
Defined.

End Registration.


(** ** Battery level *)

Section Battery.
Local Open Scope Z_scope.

Lemma getBatteryLevel_null (nav : Index.Navigator) (w : Index.World) :
  fst (Index.getBatteryLevel nav w) = Eff.Normal None /\
  Index.emitted (snd (Index.getBatteryLevel nav w)) = Index.emitted w /\
  Index.db (snd (Index.getBatteryLevel nav w)) = Index.db w.
Proof.
  unfold Index.getBatteryLevel.
  destruct (Index.getBattery nav); repeat split.
Qed.

(** What one status report puts on the socket. *)
Lemma updateDeviceStatus_emitted (f : Schema.Fault) (nav : Index.Navigator)
    (now : Z) (b : bool) (w : Index.World) :
  exists new : list Index.Emitted,
    Index.emitted (Eff.exec (Index.updateDeviceStatus f nav now b) w)
      = Index.emitted w ++ new /\
    forall ev, Index.EmitDeviceStatus ev ∈ new ->
               Socket.batteryLevel ev = None.
Proof.
  unfold Index.updateDeviceStatus, Index.getBatteryLevel, Index.with_db,
    Index.console_error, Index.socket_emit, Index.drop_promise, Schema.call.
  eff_unfold. simpl.
  assert (Hnil : forall l : list Index.Emitted,
            exists new, l = l ++ new /\
              forall ev, Index.EmitDeviceStatus ev ∈ new ->
                         Socket.batteryLevel ev = None).
  { intros l. exists []. split; [symmetry; apply app_nil_r |].
    intros ev Hin. inversion Hin. }
  assert (Hone : forall (l : list Index.Emitted) id o,
            exists new,
              l ++ [Index.EmitDeviceStatus
                      {| Socket.status_deviceId := id; Socket.isOnline := o;
                         Socket.batteryLevel := None |}] = l ++ new /\
              forall ev, Index.EmitDeviceStatus ev ∈ new ->
                         Socket.batteryLevel ev = None).
  { intros l id o. eexists. split; [reflexivity |].
    intros ev Hin. apply list_elem_of_singleton in Hin.
    injection Hin as ->. reflexivity. }
  destruct (Index.currentDevice (Index.page w)) as [cur |]; [| apply Hnil].
  destruct f as [| e | reason]; simpl.
  - destruct (Schema.update_devices _ _ _) as [e | [[] db']]; simpl;
      destruct (Index.getBattery nav); simpl; apply Hone.
  - destruct (Index.getBattery nav); simpl; apply Hone.
  - apply Hnil.
Qed.

(** The page's own [UPDATE] names only [is_online] and [last_seen]. *)
Lemma update_devices_battery_column (where_ : Schema.Device -> bool)
    (set : Schema.Device -> Schema.Device) (db db' : Schema.Db) :
  (forall d, Schema.battery_level (set d) = Schema.battery_level d) ->
  Schema.update_devices where_ set db = inr (tt, db') ->
  Schema.battery_level <$> Schema.devices db'
  = Schema.battery_level <$> Schema.devices db.
Proof.
  intros Hset. unfold Schema.update_devices.
  destruct (forallb _ _); [| discriminate].
  intros [= <-]. simpl. rewrite <- list_fmap_compose.
  apply list_fmap_ext. intros i d _. simpl. unfold Schema.update_row.
  destruct (where_ d); [apply Hset | reflexivity].
Qed.

Lemma updateDeviceStatus_battery_column (f : Schema.Fault)
    (nav : Index.Navigator) (now : Z) (b : bool) (w : Index.World) :
  Schema.battery_level <$>
    Schema.devices (Index.db (Eff.exec (Index.updateDeviceStatus f nav now b) w))
  = Schema.battery_level <$> Schema.devices (Index.db w).
Proof.
  unfold Index.updateDeviceStatus, Index.getBatteryLevel, Index.with_db,
    Index.console_error, Index.socket_emit, Index.drop_promise, Schema.call.
  eff_unfold. simpl.
  destruct (Index.currentDevice (Index.page w)) as [cur |]; [| reflexivity].
  destruct f as [| e | reason]; simpl; try reflexivity.
  - destruct (Schema.update_devices _ _ _) as [e | [[] db']] eqn:Hupd; simpl.
    + destruct (Index.getBattery nav); reflexivity.
    + apply update_devices_battery_column in Hupd; [| reflexivity].
      destruct (Index.getBattery nav); exact Hupd.
  - destruct (Index.getBattery nav); reflexivity.
Qed.

(** The relay stores what the event carries: with [batteryLevel] null
    every row keeps its battery column or has it set to NULL. *)
Lemma on_device_status_null_battery (f : Schema.Fault) (now : Z)
    (ev : Socket.StatusEvent) (w : Socket.World) (i : nat)
    (d' : Schema.Device) :
  Socket.batteryLevel ev = None ->
  Schema.devices
    (Socket.db (Eff.exec (Socket.on_device_status f now (Some ev)) w)) !! i
    = Some d' ->
  exists d, Schema.devices (Socket.db w) !! i = Some d /\
            (Schema.battery_level d' = Schema.battery_level d \/
             Schema.battery_level d' = None).
Proof.
  intros Hnull.
  unfold Socket.on_device_status, Socket.destructure, Socket.with_db,
    Socket.emit, Socket.console_error, Schema.call.
  eff_unfold. simpl.
  destruct f as [| e | reason]; simpl; eauto.
  destruct (Schema.update_devices _ _ _) as [e | [[] db']] eqn:Hupd; simpl;
    eauto.
  unfold Schema.update_devices in Hupd.
  destruct (forallb _ _); [| discriminate].
  injection Hupd as <-. simpl. rewrite list_lookup_fmap.
  destruct (Schema.devices (Socket.db w) !! i) as [d |]; [| discriminate].
  simpl. intros [= <-]. exists d. split; [reflexivity |].
  unfold Schema.update_row.
  destruct (Socket.has_id _ d); [right; exact Hnull | left; reflexivity].
Qed.

(** C10.  [getBatteryLevel] returns null whatever the browser offers; every
    ['device-status'] event [updateDeviceStatus] emits carries
    [batteryLevel] null; the page's own update leaves the battery column
    alone, and the relay, given such an event, leaves each row's battery
    level as it was or sets it to NULL. *)
Theorem battery_level_always_null :
  (forall (nav : Index.Navigator) (w : Index.World),
     fst (Index.getBatteryLevel nav w) = Eff.Normal None) /\
  (forall (f : Schema.Fault) (nav : Index.Navigator) (now : Z) (b : bool)
          (w : Index.World),
     (exists new : list Index.Emitted,
        Index.emitted (Eff.exec (Index.updateDeviceStatus f nav now b) w)
          = Index.emitted w ++ new /\
        forall ev, Index.EmitDeviceStatus ev ∈ new ->
                   Socket.batteryLevel ev = None) /\
     Schema.battery_level <$>
       Schema.devices
         (Index.db (Eff.exec (Index.updateDeviceStatus f nav now b) w))
     = Schema.battery_level <$> Schema.devices (Index.db w)) /\
  (forall (f : Schema.Fault) (now : Z) (ev : Socket.StatusEvent)
          (w : Socket.World) (i : nat) (d' : Schema.Device),
     Socket.batteryLevel ev = None ->
     Schema.devices
       (Socket.db (Eff.exec (Socket.on_device_status f now (Some ev)) w)) !! i
       = Some d' ->
     exists d, Schema.devices (Socket.db w) !! i = Some d /\
               (Schema.battery_level d' = Schema.battery_level d \/
                Schema.battery_level d' = None)).
Proof.
  refine (conj _ (conj _ _)).
  - intros nav w. apply getBatteryLevel_null.
  - intros f nav now b w. split.
    + apply updateDeviceStatus_emitted.
    + apply updateDeviceStatus_battery_column.
  - exact on_device_status_null_battery.
Qed.

(** The phone at 87 % reports null, the 87 stays in the dropped promise,
    and the relay overwrites the stored 50 with NULL. *)
Lemma battery_level_always_null_witness :
  let w' := Eff.exec (Index.updateDeviceStatus Schema.Healthy Scenarios.charged
                        Scenarios.clock true) Scenarios.tracker in
  let ev := {| Socket.status_deviceId := "a"; Socket.isOnline := true;
               Socket.batteryLevel := None |} in
  Index.emitted w' = [Index.EmitDeviceStatus ev] /\
  Index.dropped_promises w' = [87] /\
  Schema.battery_level <$>
    Schema.devices
      (Socket.db (Eff.exec (Socket.on_device_status Schema.Healthy
                              Scenarios.clock (Some ev)) Scenarios.relay))
  = [None] /\
  exists d, Schema.devices (Socket.db Scenarios.relay) !! 0%nat = Some d /\
            (Schema.battery_level (Socket.set_status ev Scenarios.clock
                                     Scenarios.phone)
               = Schema.battery_level d \/
             Schema.battery_level (Socket.set_status ev Scenarios.clock
                                     Scenarios.phone) = None).
Proof.
  intros w' ev.
  refine (conj _ (conj _ (conj _ _))); try reflexivity.
  destruct battery_level_always_null as (_ & _ & Hrelay).
  apply (Hrelay Schema.Healthy Scenarios.clock ev Scenarios.relay 0%nat);
    reflexivity.
Defined.

End Battery.


